(** * idaes-ui: panel visibility state, View menu and flowsheet layout

    A shallow embedding of
      - [context/appMainContext.tsx]   (AppContextProvider, loadDemoFlowsheet),
      - the View menu button           (HeaderFNBtnView: panelShowHandler, viewList),
      - [flowsheet_wrapper.tsx]        (FlowsheetWrapper, horizontal-primary layout),
      - the earlier FlowsheetWrapper   (vertical-primary layout),
    together with the properties of the specification that concern them. *)

From Stdlib Require Import ZArith DecimalString DecimalNat.
From stdpp Require Import gmap option list strings.

Local Open Scope string_scope.

(** ** Object store

    JavaScript objects and arrays are reference values.  The panel state is an
    array object whose elements are references to entry objects; "the same
    object" means "the same location". *)

Module Store.

Definition loc := positive.

(** [{ panelName : string, show : boolean }], the element type written in
    [panelShowHandler] and in [useState]'s initial value. *)
Record PanelEntry := mkPanelEntry { panelName : string; show : bool }.

#[global] Instance PanelEntry_eq_dec : EqDecision PanelEntry.
Proof. solve_decision. Defined.

Inductive cell :=
| CEntry (e : PanelEntry)
| CArray (elems : list loc).

#[global] Instance cell_eq_dec : EqDecision cell.
Proof. solve_decision. Defined.

Abbreviation heap := (gmap loc cell).

(** Computations over the store.  [None] stands for a thrown TypeError
    ([prev.map] where [prev] is not an array) or for a reference to nothing,
    which no JavaScript state contains. *)
Definition M (A : Type) : Type := heap -> option (A * heap).

Definition ret {A} (a : A) : M A := fun h => Some (a, h).

Definition bind {A B} (m : M A) (k : A -> M B) : M B :=
  fun h => match m h with
           | Some (a, h') => k a h'
           | None => None
           end.

Definition alloc (c : cell) : M loc :=
  fun h => let l := fresh (dom h) in Some (l, <[l := c]> h).

Definition read_array (l : loc) : M (list loc) :=
  fun h => match h !! l with
           | Some (CArray es) => Some (es, h)
           | _ => None
           end.

Definition read_cell (l : loc) : M cell :=
  fun h => match h !! l with
           | Some c => Some (c, h)
           | None => None
           end.

End Store.

Import Store.

Notation "'let*' x ':=' m 'in' k" := (bind m (fun x => k))
  (at level 10, x name, m at level 100, k at level 200).

(** [Array.prototype.map]: the callback is applied to the elements from left
    to right; the results are collected in a new array. *)
Fixpoint array_elems_map (f : loc -> M loc) (es : list loc) : M (list loc) :=
  match es with
  | [] => ret []
  | el :: rest =>
      let* el' := f el in
      let* rest' := array_elems_map f rest in
      ret (el' :: rest')
  end.

Definition array_map (f : loc -> M loc) (arr : loc) : M loc :=
  let* es := read_array arr in
  let* es' := array_elems_map f es in
  alloc (CArray es').

(** ** View menu: panelShowHandler *)

(** The callback given to [prev.map]:
      if (el.panelName === selectedPanelName) return {...el, show : !el.show}
      else return el
    An element that is an array has no [panelName]: the read gives
    [undefined], which is never [===] to a string, and the element is
    returned as it is. *)
Definition toggle_entry (selectedPanelName : string) (el : loc) : M loc :=
  let* c := read_cell el in
  match c with
  | CEntry e =>
      if String.eqb (panelName e) selectedPanelName
      then alloc (CEntry {| panelName := panelName e; show := negb (show e) |})
      else ret el
  | CArray _ => ret el
  end.

(** The updater that [panelShowHandler] passes to [setPanelState]. *)
Definition panelShowHandler_updater (selectedPanelName : string) (prev : loc) : M loc :=
  array_map (toggle_entry selectedPanelName) prev.

(** ** Context provider state *)

Definition alloc_entries : list PanelEntry -> M (list loc) :=
  fix go ents :=
    match ents with
    | [] => ret []
    | e :: rest => let* l := alloc (CEntry e) in let* ls := go rest in ret (l :: ls)
    end.

(** The array literal given to [useState] in [AppContextProvider]. *)
Definition initial_entries : list PanelEntry :=
  [ {| panelName := "Flowsheet";    show := true  |};
    {| panelName := "Variables";    show := true  |};
    {| panelName := "Stream Table"; show := true  |};
    {| panelName := "Report";       show := false |};
    {| panelName := "Diagnostics";  show := true  |} ].

Definition new_array (ents : list PanelEntry) : M loc :=
  let* ls := alloc_entries ents in alloc (CArray ls).

(** The cells the elements of an array refer to. *)
Definition deref_cells (h : heap) (es : list loc) : option (list cell) :=
  mapM (fun l => h !! l) es.

(** The typing of a collection, used only to state properties (nothing the
    code does is computed from it): [panel_entries h arr = Some ents] says
    that [arr] is an array all of whose elements are entry objects, [ents] in
    this order -- the type the application gives its panel state.  It is
    [None] for an array with an element that is not an entry, on which the
    code still runs. *)
Definition deref_entries (h : heap) (es : list loc) : option (list PanelEntry) :=
  mapM (fun l => match h !! l with Some (CEntry e) => Some e | _ => None end) es.

Definition panel_entries (h : heap) (arr : loc) : option (list PanelEntry) :=
  match h !! arr with
  | Some (CArray es) => deref_entries h es
  | _ => None
  end.

Definition initial_store : loc * heap :=
  match new_array initial_entries ∅ with
  | Some r => r
  | None => (1%positive, ∅)
  end.

(** ** Untyped values

    [AppContext] is created with [createContext<any>], so what a consumer
    reads from it is dynamically typed.  Values are structural here; numbers
    are the integers (ports, sizes and indices are all this code uses). *)

Module JS.

#[local] Unset Elimination Schemes.
Inductive value :=
| VUndefined
| VNull
| VBool (b : bool)
| VNum (n : Z)
| VStr (s : string)
| VObj (fields : list (string * value))
| VArr (elems : list value).
#[local] Set Elimination Schemes.

Inductive axios_failure :=
| NetworkError
| BadStatus (status : Z)
| ParseError.

Inductive error :=
| TypeError (msg : string)
| AxiosError (why : axios_failure).

Inductive completion (A : Type) :=
| Normal (a : A)
| Throw (err : error).
Arguments Normal {A} a.
Arguments Throw {A} err.

Definition cbind {A B} (c : completion A) (k : A -> completion B) : completion B :=
  match c with
  | Normal a => k a
  | Throw e => Throw e
  end.

Definition string_of_nat (n : nat) : string := NilZero.string_of_uint (Nat.to_uint n).
Definition string_of_Z (n : Z) : string := NilZero.string_of_int (Z.to_int n).

(** A property key that is an array index: the canonical decimal form of a
    natural number. *)
Definition index_of_key (k : string) : option nat :=
  match NilEmpty.uint_of_string k with
  | Some u => let n := Nat.of_uint u in
              if String.eqb (string_of_nat n) k then Some n else None
  | None => None
  end.

Fixpoint assoc (k : string) (fields : list (string * value)) : option value :=
  match fields with
  | [] => None
  | (k', v) :: rest => if String.eqb k' k then Some v else assoc k rest
  end.

(** [v.k] / [v[k]].  Reading a property of [undefined] or [null] throws a
    TypeError; a property that is absent reads as [undefined].  Inherited
    (prototype) properties are not modelled: none of the keys the components
    read is one. *)
Definition get_prop (v : value) (k : string) : completion value :=
  match v with
  | VUndefined =>
      Throw (TypeError ("Cannot read properties of undefined (reading '" +:+ k +:+ "')"))
  | VNull =>
      Throw (TypeError ("Cannot read properties of null (reading '" +:+ k +:+ "')"))
  | VObj fields => Normal (default VUndefined (assoc k fields))
  | VArr elems =>
      match index_of_key k with
      | Some i => Normal (default VUndefined (elems !! i))
      | None => if String.eqb k "length" then Normal (VNum (Z.of_nat (length elems)))
                else Normal VUndefined
      end
  | VStr s =>
      match index_of_key k with
      | Some i => Normal (match String.get i s with
                          | Some c => VStr (String c EmptyString)
                          | None => VUndefined
                          end)
      | None => if String.eqb k "length" then Normal (VNum (Z.of_nat (String.length s)))
                else Normal VUndefined
      end
  | VBool _ | VNum _ => Normal VUndefined
  end.

(** ToBoolean. *)
Definition truthy (v : value) : bool :=
  match v with
  | VUndefined | VNull => false
  | VBool b => b
  | VNum n => negb (Z.eqb n 0)
  | VStr s => negb (String.eqb s EmptyString)
  | VObj _ | VArr _ => true
  end.

Fixpoint join (sep : string) (parts : list string) : string :=
  match parts with
  | [] => EmptyString
  | [p] => p
  | p :: rest => p +:+ sep +:+ join sep rest
  end.

(** ToString; for an array this is [Array.prototype.join] with a comma, where
    [undefined] and [null] elements contribute the empty string. *)
Fixpoint to_string (v : value) : string :=
  match v with
  | VUndefined => "undefined"
  | VNull => "null"
  | VBool true => "true"
  | VBool false => "false"
  | VNum n => string_of_Z n
  | VStr s => s
  | VObj _ => "[object Object]"
  | VArr elems =>
      join "," (map (fun e => match e with
                              | VUndefined | VNull => EmptyString
                              | _ => to_string e
                              end) elems)
  end.

(** [x == "5173"] (IsLooselyEqual with the string literal on the right):
    a string is compared as a string, a number with ToNumber("5173") = 5173,
    a boolean through ToNumber (0 or 1), [undefined] and [null] are never
    loosely equal to a string, an object through its primitive (string) form. *)
Definition loose_eq_5173 (x : value) : bool :=
  match x with
  | VStr s => String.eqb s "5173"
  | VNum n => Z.eqb n 5173
  | VBool b => Z.eqb (if b then 1 else 0) 5173
  | VUndefined | VNull => false
  | VObj _ | VArr _ => String.eqb (to_string x) "5173"
  end.

(** Object.is on primitives.  Structural values carry no identity, so an
    object-valued dependency is taken as changed. *)
Definition same_value (x y : value) : bool :=
  match x, y with
  | VUndefined, VUndefined => true
  | VNull, VNull => true
  | VBool a, VBool b => Bool.eqb a b
  | VNum a, VNum b => Z.eqb a b
  | VStr a, VStr b => String.eqb a b
  | _, _ => false
  end.

End JS.

Import JS.

(** Decidable equality of values (used to compare configuration keys). *)
Fixpoint value_eqb (x y : value) : bool :=
  match x, y with
  | VUndefined, VUndefined => true
  | VNull, VNull => true
  | VBool a, VBool b => Bool.eqb a b
  | VNum a, VNum b => Z.eqb a b
  | VStr a, VStr b => String.eqb a b
  | VObj f, VObj g =>
      (fix fields (f g : list (string * value)) : bool :=
         match f, g with
         | [], [] => true
         | (k, v) :: f', (k', v') :: g' => String.eqb k k' && value_eqb v v' && fields f' g'
         | _, _ => false
         end) f g
  | VArr f, VArr g =>
      (fix elems (f g : list value) : bool :=
         match f, g with
         | [], [] => true
         | v :: f', v' :: g' => value_eqb v v' && elems f' g'
         | _, _ => false
         end) f g
  | _, _ => false
  end.

(** ** Render output

    What a component returns: a tree of elements.  A [{...}] child that
    evaluates to a plain value ([false], the empty string, a text) is an [Expr]; React
    mounts nothing for it. *)

Inductive component :=
| Fragment | Div | Ul | Li | Span
| FontAwesomeIcon
| PanelGroup | Panel | PanelResizeHandle
| MinimizedBar
| FlowsheetHeader | Flowsheet
| FlowsheetVariablesHeader | Flowsheet_variable
| FlowsheetDiagnostics
| StreamTable.

Inductive icon := faTableColumns | faCheck.

Inductive prop :=
| PVal (v : value)
| PIcon (i : icon)
| POnClick (selectedPanelName : string)  (* () => panelShowHandler(selectedPanelName) *)
| POnClickWith (arg : value).            (* the same closure, over a non-string [el.panelName] *)

#[local] Unset Elimination Schemes.
Inductive node :=
| Element (c : component) (props : list (string * prop)) (children : list node)
| Expr (v : value).
#[local] Set Elimination Schemes.

Definition component_eqb (a b : component) : bool :=
  match a, b with
  | Fragment, Fragment | Div, Div | Ul, Ul | Li, Li | Span, Span
  | FontAwesomeIcon, FontAwesomeIcon
  | PanelGroup, PanelGroup | Panel, Panel | PanelResizeHandle, PanelResizeHandle
  | MinimizedBar, MinimizedBar
  | FlowsheetHeader, FlowsheetHeader | Flowsheet, Flowsheet
  | FlowsheetVariablesHeader, FlowsheetVariablesHeader
  | Flowsheet_variable, Flowsheet_variable
  | FlowsheetDiagnostics, FlowsheetDiagnostics
  | StreamTable, StreamTable => true
  | _, _ => false
  end.

(** [cond && <X/>] in JSX: the element when [cond] is truthy, else the value
    of [cond] itself. *)
Definition and_then (cond : value) (n : node) : node :=
  if truthy cond then n else Expr cond.

(** Component [c] is mounted somewhere in the tree. *)
Fixpoint mounted (c : component) (n : node) : bool :=
  match n with
  | Element c' _ children => component_eqb c' c || existsb (mounted c) children
  | Expr _ => false
  end.

Definition panelShow : value := VObj [("display", VStr "block")].
Definition panelHide : value := VObj [("display", VStr "none")].

Fixpoint prop_lookup (k : string) (props : list (string * prop)) : option prop :=
  match props with
  | [] => None
  | (k', p) :: rest => if String.eqb k' k then Some p else prop_lookup k rest
  end.

(** Some element of the tree carries [style = {display: "none"}]. *)
Fixpoint styled_hidden (n : node) : bool :=
  match n with
  | Element _ props children =>
      match prop_lookup "style" props with
      | Some (PVal v) => value_eqb v panelHide
      | _ => false
      end || existsb styled_hidden children
  | Expr _ => false
  end.

(** The text an element displays. *)
Fixpoint text_content (n : node) : string :=
  match n with
  | Element _ _ children => String.concat EmptyString (map text_content children)
  | Expr (VStr s) => s
  | Expr (VNum z) => string_of_Z z
  | Expr _ => EmptyString
  end.

Fixpoint has_icon (i : icon) (n : node) : bool :=
  match n with
  | Element c props children =>
      (component_eqb c FontAwesomeIcon &&
       match prop_lookup "icon" props with
       | Some (PIcon j) => match i, j with
                           | faCheck, faCheck | faTableColumns, faTableColumns => true
                           | _, _ => false
                           end
       | _ => false
       end) || existsb (has_icon i) children
  | Expr _ => false
  end.

(** ** Application state held by AppContextProvider

    [panelState] and [flowsheetState] are the two [useState] cells; the
    console and the list of issued requests record what the provider does to
    the outside. *)

Record app := mkApp {
  panelState : loc;
  flowsheetState : value;
  console_errors : list error;
  requests : list string
}.

(** [useState([...])] and [useState(null)] at the first render. *)
Definition initial_app : app :=
  {| panelState := initial_store.1; flowsheetState := VNull;
     console_errors := []; requests := [] |}.

Definition initial_heap : heap := initial_store.2.

(** [setPanelState(updater)]: the functional update of the panel state. *)
Definition setPanelState (updater : loc -> M loc) (st : app) : M app :=
  let* next := updater (panelState st) in
  ret {| panelState := next; flowsheetState := flowsheetState st;
         console_errors := console_errors st; requests := requests st |}.

Definition panelShowHandler (selectedPanelName : string) (st : app) : M app :=
  setPanelState (panelShowHandler_updater selectedPanelName) st.

(** A sequence of clicks on View-menu entries. *)
Fixpoint clicks (names : list string) (st : app) : M app :=
  match names with
  | [] => ret st
  | n :: rest => let* st' := panelShowHandler n st in clicks rest st'
  end.

(** ** View menu: viewList and the component *)

Definition view_item (css : string -> string) (el : PanelEntry) (index : nat) : node :=
  Element Li
    [ ("key", PVal (VStr (panelName el +:+ string_of_nat index)));
      ("className", PVal (VStr ("mb-sm " +:+ css "header_fn_btn_each_view")));
      ("onClick", POnClick (panelName el)) ]
    [ Element Span [] [Expr (VStr (panelName el))];
      if show el then Element FontAwesomeIcon [("icon", PIcon faCheck)] []
      else Expr (VStr EmptyString) ].

(** The item for an element that is not an entry (an array): [el.panelName]
    and [el.show] read as [undefined], so the key expression
    [undefined + index] is NaN (React keeps keys as strings), the span has no
    text and there is no check mark. *)
Definition view_item_untyped (css : string -> string) : node :=
  Element Li
    [ ("key", PVal (VStr "NaN"));
      ("className", PVal (VStr ("mb-sm " +:+ css "header_fn_btn_each_view")));
      ("onClick", POnClickWith VUndefined) ]
    [ Element Span [] [Expr VUndefined];
      Expr (VStr EmptyString) ].

Definition view_item_of (css : string -> string) (c : cell) (index : nat) : node :=
  match c with
  | CEntry el => view_item css el index
  | CArray _ => view_item_untyped css
  end.

(** [context.panelState.map((el, index) => <li ...>)]; it throws when
    [panelState] is not an array. *)
Definition viewList (css : string -> string) (h : heap) (st : app) : option (list node) :=
  match h !! panelState st with
  | Some (CArray es) =>
      match deref_cells h es with
      | Some cells => Some (imap (fun index c => view_item_of css c index) cells)
      | None => None
      end
  | _ => None
  end.


(** ** The value consumers obtain from [useContext(AppContext)]

    The provider passes [{panelState, setPanelState, flowsheetState}].  The
    setter is the transition [setPanelState] above and has no counterpart
    among the structural values; no consumer modelled here reads it as data. *)

Definition entry_value (e : PanelEntry) : value :=
  VObj [("panelName", VStr (panelName e)); ("show", VBool (show e))].

Definition context_value (ents : list PanelEntry) (fs : value) : value :=
  VObj [("panelState", VArr (map entry_value ents)); ("flowsheetState", fs)].

(** The structural value of a stored object: an entry as its two properties,
    an array as the array of its elements' values.  The depth is bounded by
    [fuel]; with as much fuel as the store has cells, plus one, every object
    that does not contain itself has a value. *)
Fixpoint reify (fuel : nat) (h : heap) (l : loc) : option value :=
  match fuel with
  | 0 => None
  | S fuel' =>
      match h !! l with
      | Some (CEntry e) => Some (entry_value e)
      | Some (CArray es) =>
          match mapM (reify fuel' h) es with
          | Some vs => Some (VArr vs)
          | None => None
          end
      | None => None
      end
  end.

Definition provider_context (h : heap) (st : app) : option value :=
  match reify (S (size h)) h (panelState st) with
  | Some ps => Some (VObj [("panelState", ps); ("flowsheetState", flowsheetState st)])
  | None => None
  end.

(** ** Effects of the layout composer

    [MainFV] (flowsheet_functions/mainFV) is the imperative driver; only its
    constructor call and [cleanToolBarEvent] are visible from the wrapper, and
    they are recorded as events. *)

Inductive event :=
| NewMainFV (inst : nat)
    (fv_id server_port isFvShow isVariableShow isStreamTableShow : value)
| CleanToolBarEvent (inst : nat).

Record world := mkWorld { next_inst : nat; trace : list event }.

Definition E (A : Type) : Type := world -> A * world.

Definition eret {A} (a : A) : E A := fun w => (a, w).

Definition ebind {A B} (m : E A) (k : A -> E B) : E B :=
  fun w => let (a, w') := m w in k a w'.

Notation "'let&' x ':=' m 'in' k" := (ebind m (fun x => k))
  (at level 10, x name, m at level 100, k at level 200).

Notation "'let!' x ':=' m 'in' k" := (cbind m (fun x => k))
  (at level 10, x name, m at level 100, k at level 200).

Definition new_MainFV (fv_id server_port isFvShow isVariableShow isStreamTableShow : value)
  : E nat :=
  fun w =>
    (next_inst w,
     {| next_inst := S (next_inst w);
        trace := trace w ++
                 [NewMainFV (next_inst w) fv_id server_port isFvShow isVariableShow
                    isStreamTableShow] |}).

Definition cleanToolBarEvent (fv : nat) : E unit :=
  fun w => (tt, {| next_inst := next_inst w; trace := trace w ++ [CleanToolBarEvent fv] |}).

(** [server_port == "5173" ? server_port = 8000 : server_port = server_port] *)
Definition resolve_server_port (server_port : value) : value :=
  if loose_eq_5173 server_port then VNum 8000 else server_port.

(** What [useEffect] receives: the effect (returning its cleanup, if any) and
    the dependency array. *)
Record hook_effect := mkEffect {
  run : E (option (E unit));
  deps : list value
}.

Record rendered := mkRendered {
  output : node;
  effect : hook_effect
}.

Module Horizontal.

(** The body of the [useEffect] callback of flowsheet_wrapper.tsx. *)
Definition mount_effect (fv_id server_port isFvShow isStreamTableShow : value)
  : E (option (E unit)) :=
  let server_port := resolve_server_port server_port in
  let& fv := new_MainFV fv_id server_port isFvShow (VBool false) isStreamTableShow in
  eret (Some (cleanToolBarEvent fv)).

(** flowsheet_wrapper.tsx *)
Definition FlowsheetWrapper (css : string -> string) (context : value) : completion rendered :=
  let! server_port := get_prop context "server_port" in
  let! fv_id := get_prop context "fv_id" in
  let! panelState := get_prop context "panelState" in
  let! fv := get_prop panelState "fv" in
  let! isFvShow := get_prop fv "show" in
  let! diagnostics := get_prop panelState "diagnostics" in
  let! isDiagnosticsShow := get_prop diagnostics "show" in
  let! streamTable := get_prop panelState "streamTable" in
  let! isStreamTableShow := get_prop streamTable "show" in
  Normal
    {| effect :=
         {| run := mount_effect fv_id server_port isFvShow isStreamTableShow;
            deps := [isFvShow; isStreamTableShow] |};
       output :=
         Element Div
           [ ("id", PVal (VStr "flowsheet-wrapper"));
             ("className", PVal (VStr (css "flowsheetWrapper"))) ]
           [ Element MinimizedBar [] [];
             Element PanelGroup [("direction", PVal (VStr "horizontal"))]
               [ Element Panel [("defaultSize", PVal (VNum 65))]
                   [ Element PanelGroup [("direction", PVal (VStr "vertical"))]
                       [ and_then isFvShow
                           (Element Panel
                              [ ("defaultSize",
                                 PVal (VNum (if truthy isFvShow then 65 else 0)));
                                ("maxSize", PVal (VNum 100)) ]
                              [ Element FlowsheetHeader [] [];
                                Element Flowsheet [] [] ]);
                         Element PanelResizeHandle
                           [("className",
                             PVal (VStr "panelResizeHandle panelResizeHandle_horizontal"))] [];
                         and_then isStreamTableShow
                           (Element Panel
                              [ ("maxSize", PVal (VNum 100));
                                ("defaultSize", PVal (VNum 35));
                                ("style",
                                 PVal (if truthy isStreamTableShow
                                       then panelShow else panelHide)) ]
                              [ Element StreamTable [] [] ]) ] ];
                 Element PanelResizeHandle
                   [("className",
                     PVal (VStr "panelResizeHandle panelResizeHandle_vertical"))] [];
                 and_then isDiagnosticsShow
                   (Element Panel
                      [ ("defaultSize",
                         PVal (VNum (if truthy isFvShow then 35 else 100)));
                        ("minSize", PVal (VNum 0)) ]
                      [ Element FlowsheetDiagnostics [] [] ]) ] ] |}.

End Horizontal.

Module Vertical.

(** The earlier wrapper (vertical-primary layout); its effect is empty. *)
Definition FlowsheetWrapper (context : value) : completion rendered :=
  let! panelState := get_prop context "panelState" in
  let! fv := get_prop panelState "fv" in
  let! isFvShow := get_prop fv "show" in
  let! variables := get_prop panelState "variables" in
  let! isVariablesShow := get_prop variables "show" in
  let! streamTable := get_prop panelState "streamTable" in
  let! isStreamTableShow := get_prop streamTable "show" in
  Normal
    {| effect := {| run := eret None; deps := [] |};
       output :=
         Element Fragment []
           [ Element PanelGroup [("direction", PVal (VStr "vertical"))]
               [ Element Panel [("maxSize", PVal (VNum 100)); ("defaultSize", PVal (VNum 70))]
                   [ Element PanelGroup [("direction", PVal (VStr "horizontal"))]
                       [ and_then isFvShow
                           (Element Panel
                              [("defaultSize", PVal (VNum 70)); ("minSize", PVal (VNum 0))]
                              [ Element FlowsheetHeader [] [];
                                Element Flowsheet [] [] ]);
                         Element PanelResizeHandle
                           [("className",
                             PVal (VStr "panelResizeHandle panelResizeHandle_vertical"))] [];
                         and_then isVariablesShow
                           (Element Panel
                              [("defaultSize", PVal (VNum 30)); ("minSize", PVal (VNum 0))]
                              [ Element FlowsheetVariablesHeader [] [];
                                Element Flowsheet_variable [] [] ]) ] ];
                 Element PanelResizeHandle
                   [("className",
                     PVal (VStr "panelResizeHandle panelResizeHandle_horizontal"))] [];
                 and_then isStreamTableShow
                   (Element Panel
                      [("maxSize", PVal (VNum 100)); ("defaultSize", PVal (VNum 30))]
                      [ Element StreamTable [] [] ]) ] ] |}.

End Vertical.

(** ** The effect hook over the life of a mounted component

    [useEffect(effect, deps)]: after the first render the effect runs; after a
    later render it runs again only if some dependency differs from the last
    committed one (Object.is), and then the previous cleanup runs first; on
    unmount the last cleanup runs. *)

Record fiber := mkFiber {
  last_deps : list value;
  cleanup : option (E unit)
}.

Fixpoint deps_equal (prev next : list value) : bool :=
  match prev, next with
  | a :: prev', b :: next' => same_value a b && deps_equal prev' next'
  | _, _ => true
  end.

Definition run_cleanup (c : option (E unit)) : E unit :=
  match c with
  | Some f => f
  | None => eret tt
  end.

Definition run_effect (eff : hook_effect) : E fiber :=
  let& c := run eff in
  eret {| last_deps := deps eff; cleanup := c |}.

Definition commit (prev : option fiber) (r : rendered) : E fiber :=
  match prev with
  | None => run_effect (effect r)
  | Some f =>
      if deps_equal (last_deps f) (deps (effect r)) then eret f
      else let& _ := run_cleanup (cleanup f) in run_effect (effect r)
  end.

Definition unmount (f : option fiber) : E unit :=
  match f with
  | Some f => run_cleanup (cleanup f)
  | None => eret tt
  end.

(** Mount with the first context value, re-render with each following one,
    then unmount.  A render that throws takes the component down. *)
Fixpoint renders (comp : value -> completion rendered) (contexts : list value)
    (f : option fiber) : E (option error) :=
  match contexts with
  | [] => let& _ := unmount f in eret None
  | ctx :: rest =>
      match comp ctx with
      | Normal r => let& f' := commit f r in renders comp rest (Some f')
      | Throw e => let& _ := unmount f in eret (Some e)
      end
  end.

Definition lifecycle (comp : value -> completion rendered) (contexts : list value)
  : list event :=
  trace (renders comp contexts None {| next_inst := 0; trace := [] |}).2.

(** ** Context values of the shape the layout composers read *)

Record config := mkConfig {
  cfg_fv_id : value;
  cfg_server_port : value;
  cfg_fv : bool;
  cfg_streamTable : bool;
  cfg_diagnostics : bool;
  cfg_variables : bool
}.

Definition keyed_context (c : config) : value :=
  VObj [ ("server_port", cfg_server_port c);
         ("fv_id", cfg_fv_id c);
         ("panelState",
          VObj [ ("fv", VObj [("show", VBool (cfg_fv c))]);
                 ("variables", VObj [("show", VBool (cfg_variables c))]);
                 ("streamTable", VObj [("show", VBool (cfg_streamTable c))]);
                 ("diagnostics", VObj [("show", VBool (cfg_diagnostics c))]) ]) ].

(** The configuration key the specification names, and the one the
    dependency array of the effect names. *)
Definition full_key_eqb (a b : config) : bool :=
  value_eqb (cfg_fv_id a) (cfg_fv_id b) &&
  value_eqb (cfg_server_port a) (cfg_server_port b) &&
  Bool.eqb (cfg_fv a) (cfg_fv b) &&
  Bool.eqb (cfg_streamTable a) (cfg_streamTable b).

Definition flag_key_eqb (a b : config) : bool :=
  Bool.eqb (cfg_fv a) (cfg_fv b) &&
  Bool.eqb (cfg_streamTable a) (cfg_streamTable b).

(** Number of changes of a key along a sequence, the first value counting as
    a change (from nothing). *)
Fixpoint changes_from {A} (same : A -> A -> bool) (prev : A) (l : list A) : nat :=
  match l with
  | [] => 0
  | x :: rest => (if same prev x then 0 else 1) + changes_from same x rest
  end.

Definition changes {A} (same : A -> A -> bool) (l : list A) : nat :=
  match l with
  | [] => 0
  | x :: rest => S (changes_from same x rest)
  end.

Definition is_create (e : event) : bool :=
  match e with NewMainFV _ _ _ _ _ _ => true | CleanToolBarEvent _ => false end.

Fixpoint creations (tr : list event) : nat :=
  match tr with
  | [] => 0
  | e :: rest => (if is_create e then 1 else 0) + creations rest
  end.

(** A trace in which instance [n] is created, then released, then instance
    [n+1] is created, and so on: no instance is created while an earlier one
    still holds its bindings, and every instance is released. *)
Fixpoint released_in_turn (n : nat) (tr : list event) : bool :=
  match tr with
  | [] => true
  | NewMainFV i _ _ _ _ _ :: CleanToolBarEvent j :: rest =>
      Nat.eqb i n && Nat.eqb j n && released_in_turn (S n) rest
  | _ => false
  end.

(** ** Demo data loader *)

Record response := mkResponse { data : value; status : Z }.

Inductive settled (A : Type) :=
| Fulfilled (a : A)
| Rejected (reason : error).
Arguments Fulfilled {A} a.
Arguments Rejected {A} reason.

Definition X (A : Type) : Type := app -> completion A * app.

Definition xbind {A B} (m : X A) (k : A -> X B) : X B :=
  fun w => match m w with
           | (Normal a, w') => k a w'
           | (Throw e, w') => (Throw e, w')
           end.

Definition try_catch {A} (body : X A) (handler : error -> X A) : X A :=
  fun w => match body w with
           | (Normal a, w') => (Normal a, w')
           | (Throw e, w') => handler e w'
           end.

(** [await axios.get(url)]: the request is issued; the promise the network
    settles either yields the response or throws the rejection reason. *)
Definition axios_get (network : string -> settled response) (url : string) : X response :=
  fun w =>
    (match network url with
     | Fulfilled res => Normal res
     | Rejected err => Throw err
     end,
     {| panelState := panelState w; flowsheetState := flowsheetState w;
        console_errors := console_errors w; requests := requests w ++ [url] |}).

Definition setFlowsheetState (v : value) : X unit :=
  fun w => (Normal tt,
            {| panelState := panelState w; flowsheetState := v;
               console_errors := console_errors w; requests := requests w |}).

Definition console_error (err : error) : X unit :=
  fun w => (Normal tt,
            {| panelState := panelState w; flowsheetState := flowsheetState w;
               console_errors := console_errors w ++ [err]; requests := requests w |}).

Definition loadDemoFlowsheet (network : string -> settled response) : X unit :=
  try_catch
    (xbind (axios_get network "/data/demo_flowsheet.json") (fun res =>
     let JSON := data res in
     setFlowsheetState JSON))
    (fun err => console_error err).

(** What the request meets on the wire: no answer at all, or an HTTP answer
    whose body either is a JSON text (given by the document it denotes) or is
    not JSON at all. *)
Inductive body :=
| JsonText (doc : value)
| NotJson (raw : string).

Inductive exchange :=
| NoAnswer
| Answer (status : Z) (b : body).

(** [axios.get] as the loader calls it, with no configuration: axios is a
    library, not code of this repository, and this is its documented default
    behaviour.  A missing answer rejects; an answer rejects unless its status
    is in 200..299 (the default [validateStatus]); the body is parsed as JSON
    and, where that fails, handed over as the raw text without any error (the
    default [transformResponse] with silent JSON parsing). *)
Definition axios_default (x : exchange) : settled response :=
  match x with
  | NoAnswer => Rejected (AxiosError NetworkError)
  | Answer status b =>
      if (200 <=? status)%Z && (status <? 300)%Z
      then Fulfilled {| data := match b with
                                | JsonText doc => doc
                                | NotJson raw => VStr raw
                                end;
                        status := status |}
      else Rejected (AxiosError (BadStatus status))
  end.

(** A failing fetch in the sense of the specification: network error,
    non-2xx response, or a body that does not parse. *)
Definition fetch_failed (x : exchange) : bool :=
  match x with
  | NoAnswer => true
  | Answer status b =>
      negb ((200 <=? status)%Z && (status <? 300)%Z) ||
      match b with JsonText _ => false | NotJson _ => true end
  end.

(** The specification's reading of the loader: a failing fetch leaves the
    flowsheet state [null] and logs exactly one error. *)
Definition failure_leaves_null_and_logs_once (x : exchange) : Prop :=
  fetch_failed x = true ->
  exists err,
    loadDemoFlowsheet (fun _ => axios_default x) initial_app
    = (Normal tt,
       {| panelState := panelState initial_app; flowsheetState := VNull;
          console_errors := [err]; requests := ["/data/demo_flowsheet.json"] |}).

(** ** Vocabulary of the statements *)

(** The entry a click on [sel] leaves in place of [e]. *)
Definition toggled (sel : string) (e : PanelEntry) : PanelEntry :=
  if String.eqb (panelName e) sel
  then {| panelName := panelName e; show := negb (show e) |}
  else e.

(** [es] are references to the entries [ents], in order. *)
Definition entries_at (h : heap) (es : list loc) (ents : list PanelEntry) : Prop :=
  Forall2 (fun l e => h !! l = Some (CEntry e)) es ents.

(** How the reference at a position of the new array relates to the one at
    the same position of the old array: a matching entry is replaced by an
    object that did not exist before, any other is the very same object. *)
Definition replaced_or_same (h : heap) (sel : string) (l l' : loc) : Prop :=
  forall e, h !! l = Some (CEntry e) ->
    if String.eqb (panelName e) sel then h !! l' = None else l' = l.

Definition ports_used (tr : list event) : list value :=
  omap (fun e => match e with
                 | NewMainFV _ _ server_port _ _ _ => Some server_port
                 | CleanToolBarEvent _ => None
                 end) tr.

Definition demo_url : string := "/data/demo_flowsheet.json".

(** The constructor call the effect makes when it runs under configuration
    [c], as instance [n]. *)
Definition create_event (n : nat) (c : config) : event :=
  NewMainFV n (cfg_fv_id c) (resolve_server_port (cfg_server_port c))
    (VBool (cfg_fv c)) (VBool false) (VBool (cfg_streamTable c)).

(** What is still to happen when instance [n], created under [prev], is live
    and the renders [cfgs] followed by the unmount lie ahead. *)
Fixpoint expected_after (n : nat) (prev : config) (cfgs : list config) : list event :=
  match cfgs with
  | [] => [CleanToolBarEvent n]
  | c :: rest =>
      if flag_key_eqb prev c then expected_after n c rest
      else CleanToolBarEvent n :: create_event (S n) c :: expected_after (S n) c rest
  end.

(** The whole life of the horizontal wrapper under a sequence of
    configurations. *)
Definition wrapper_trace (css : string -> string) (cfgs : list config) : list event :=
  lifecycle (Horizontal.FlowsheetWrapper css) (map keyed_context cfgs).

(** "Exactly one driver instance per change of the key", for a given notion
    of key. *)
Definition one_driver_per_change (same : config -> config -> bool)
    (css : string -> string) (cfgs : list config) : Prop :=
  creations (wrapper_trace css cfgs) = changes same cfgs.


(** ** Further vocabulary *)

(** How often [name] was clicked in a sequence of clicks. *)
Fixpoint click_count (names : list string) (name : string) : nat :=
  match names with
  | [] => 0
  | m :: rest => (if String.eqb name m then 1 else 0) + click_count rest name
  end.

(** An entry after a sequence of clicks: its flag is flipped once per click
    on its name. *)
Definition after_clicks (names : list string) (e : PanelEntry) : PanelEntry :=
  {| panelName := panelName e;
     show := xorb (show e) (Nat.odd (click_count names (panelName e))) |}.

(** Number of entries a click on [sel] matches. *)
Fixpoint matching (sel : string) (ents : list PanelEntry) : nat :=
  match ents with
  | [] => 0
  | e :: rest => (if String.eqb (panelName e) sel then 1 else 0) + matching sel rest
  end.

(** The name a click on a menu item passes to [panelShowHandler], and the
    React key of the item. *)
Definition on_click_target (item : node) : option string :=
  match item with
  | Element _ props _ =>
      match prop_lookup "onClick" props with
      | Some (POnClick sel) => Some sel
      | _ => None
      end
  | Expr _ => None
  end.

Definition item_key (item : node) : option value :=
  match item with
  | Element _ props _ =>
      match prop_lookup "key" props with
      | Some (PVal k) => Some k
      | _ => None
      end
  | Expr _ => None
  end.


Definition nullish (v : value) : bool :=
  match v with
  | VUndefined | VNull => true
  | _ => false
  end.

(** The value of [v.k] where the read does not throw. *)
Definition read (v : value) (k : string) : value :=
  match get_prop v k with
  | Normal x => x
  | Throw _ => VUndefined
  end.

(** The visibility flag a wrapper reads for the panel keyed [key]:
    [context.panelState.key.show]. *)
Definition flag_read (context : value) (key : string) : value :=
  read (read (read context "panelState") key) "show".

Definition entry_readable (context : value) (key : string) : bool :=
  negb (nullish (read (read context "panelState") key)).

(** Number of elements of component [c] in a tree. *)
Fixpoint count_component (c : component) (n : node) : nat :=
  match n with
  | Element c' _ children =>
      (if component_eqb c' c then 1 else 0) +
      list_sum (map (count_component c) children)
  | Expr _ => 0
  end.

(** The [defaultSize] of a child of a panel group, 0 for a child that is not
    a [Panel] with a numeric [defaultSize]. *)
Definition default_size (n : node) : Z :=
  match n with
  | Element Panel props _ =>
      match prop_lookup "defaultSize" props with
      | Some (PVal (VNum z)) => z
      | _ => 0%Z
      end
  | _ => 0%Z
  end.

(** For every [PanelGroup] of a tree, outermost first, the sum of the default
    sizes of the panels that are its direct children. *)
Fixpoint group_default_sums (n : node) : list Z :=
  match n with
  | Element c _ children =>
      (if component_eqb c PanelGroup
       then [fold_right Z.add 0%Z (map default_size children)] else [])
      ++ concat (map group_default_sums children)
  | Expr _ => []
  end.

Definition Z_of_bool (b : bool) (z : Z) : Z := if b then z else 0%Z.

(** A constructor call that passes [false] for the variables flag and a port
    that is not loosely equal to "5173". *)
Definition args_ok (e : event) : Prop :=
  match e with
  | NewMainFV _ _ port _ isVariableShow _ =>
      loose_eq_5173 port = false /\ isVariableShow = VBool false
  | CleanToolBarEvent _ => True
  end.

Definition with_loaded (st : app) (loaded : app) : app :=
  {| panelState := panelState st; flowsheetState := flowsheetState loaded;
     console_errors := console_errors loaded; requests := requests loaded |}.

(** A context in which the values read by the wrappers are exactly the given
    ones. *)
Definition flags_context
    (server_port fv_id fv variables streamTable diagnostics : value) : value :=
  VObj [ ("server_port", server_port);
         ("fv_id", fv_id);
         ("panelState",
          VObj [ ("fv", VObj [("show", fv)]);
                 ("variables", VObj [("show", variables)]);
                 ("streamTable", VObj [("show", streamTable)]);
                 ("diagnostics", VObj [("show", diagnostics)]) ]) ].

(** * Properties *)

(** ** Sanity checks of the embedding on concrete inputs *)

Example initial_store_entries :
  panel_entries initial_store.2 initial_store.1 = Some initial_entries.
Proof. vm_compute. reflexivity. Qed.

Example click_stream_table :
  (match panelShowHandler_updater "Stream Table" initial_store.1 initial_store.2 with
   | Some (p, h) => panel_entries h p
   | None => None
   end) = Some [ mkPanelEntry "Flowsheet" true; mkPanelEntry "Variables" true;
                 mkPanelEntry "Stream Table" false; mkPanelEntry "Report" false;
                 mkPanelEntry "Diagnostics" true ].
Proof. vm_compute. reflexivity. Qed.

Example get_prop_array_fv :
  get_prop (VArr [VObj [("panelName", VStr "Flowsheet"); ("show", VBool true)]]) "fv"
  = Normal VUndefined.
Proof. reflexivity. Qed.

Example get_prop_array_0 :
  get_prop (VArr [VNum 7; VNum 8]) "1" = Normal (VNum 8)
  /\ get_prop (VArr [VNum 7; VNum 8]) "01" = Normal VUndefined
  /\ get_prop (VArr [VNum 7; VNum 8]) "length" = Normal (VNum 2).
Proof. repeat split; reflexivity. Qed.

Example loose_eq_examples :
  loose_eq_5173 (VStr "5173") = true /\ loose_eq_5173 (VNum 5173) = true
  /\ loose_eq_5173 (VStr "05173") = false /\ loose_eq_5173 (VArr [VNum 5173]) = true
  /\ loose_eq_5173 VUndefined = false.
Proof. repeat split; reflexivity. Qed.

Example wrapper_trace_three_renders :
  wrapper_trace (fun cls => cls)
    [ mkConfig (VStr "fv") (VStr "5173") true true true false;
      mkConfig (VStr "fv") (VStr "5173") true true false false;
      mkConfig (VStr "fv") (VNum 49999) true false false false ]
  = [ NewMainFV 0 (VStr "fv") (VNum 8000) (VBool true) (VBool false) (VBool true);
      CleanToolBarEvent 0;
      NewMainFV 1 (VStr "fv") (VNum 49999) (VBool true) (VBool false) (VBool false);
      CleanToolBarEvent 1 ].
Proof. reflexivity. Qed.

Example load_rejected :
  loadDemoFlowsheet (fun _ => Rejected (AxiosError (BadStatus 500))) initial_app
  = (Normal tt,
     {| panelState := panelState initial_app; flowsheetState := VNull;
        console_errors := [AxiosError (BadStatus 500)];
        requests := ["/data/demo_flowsheet.json"] |}).
Proof. reflexivity. Qed.

Example provider_state_has_no_fv :
  get_prop (VArr (map entry_value initial_entries)) "fv" = Normal VUndefined /\
  get_prop VUndefined "show"
  = Throw (TypeError "Cannot read properties of undefined (reading 'show')").
Proof. split; reflexivity. Qed.

Example click_on_array_of_arrays :
  let h : heap := {[ 1%positive := CArray []; 2%positive := CArray [1%positive] ]} in
  match panelShowHandler_updater "Report" 2%positive h with
  | Some (next, h') => h' !! next
  | None => None
  end = Some (CArray [1%positive]).
Proof. vm_compute. reflexivity. Qed.

Example menu_on_array_of_arrays :
  let h : heap := {[ 1%positive := CArray []; 2%positive := CArray [1%positive] ]} in
  viewList (fun cls => cls) h (mkApp 2%positive VNull [] [])
  = Some [view_item_untyped (fun cls => cls)].
Proof. vm_compute. reflexivity. Qed.

Example load_malformed_body :
  loadDemoFlowsheet (fun _ => axios_default (Answer 200 (NotJson "{bad json"))) initial_app
  = (Normal tt,
     {| panelState := panelState initial_app; flowsheetState := VStr "{bad json";
        console_errors := []; requests := ["/data/demo_flowsheet.json"] |}).
Proof. reflexivity. Qed.

(** [value_eqb] decides equality of values. *)
Lemma value_eqb_eq (x y : value) : value_eqb x y = true <-> x = y.
Proof.
  revert y.
  refine ((fix IH (x : value) : forall y, value_eqb x y = true <-> x = y := _) x).
  destruct x as [| |a|a|a|f|f]; intros [| |b|b|b|g|g]; simpl;
    try (split; [discriminate | congruence]); try tauto.
  - rewrite Bool.eqb_true_iff. split; congruence.
  - rewrite Z.eqb_eq. split; congruence.
  - rewrite String.eqb_eq. split; congruence.
  - revert g. induction f as [|[k v] f IHf]; intros [|[k' v'] g];
      try (split; [discriminate | congruence]); try tauto.
    rewrite !andb_true_iff, String.eqb_eq, (IH v v').
    specialize (IHf g). split.
    + intros [[-> ->] Hfg]. apply IHf in Hfg. congruence.
    + intros [= -> -> ->]. repeat split. apply IHf. reflexivity.
  - revert g. induction f as [|v f IHf]; intros [|v' g];
      try (split; [discriminate | congruence]); try tauto.
    rewrite !andb_true_iff, (IH v v').
    specialize (IHf g). split.
    + intros [-> Hfg]. apply IHf in Hfg. congruence.
    + intros [= -> ->]. split; [reflexivity|]. apply IHf. reflexivity.
Qed.

Lemma full_key_eqb_eq (a b : config) :
  full_key_eqb a b = true <->
  cfg_fv_id a = cfg_fv_id b /\ cfg_server_port a = cfg_server_port b /\
  cfg_fv a = cfg_fv b /\ cfg_streamTable a = cfg_streamTable b.
Proof.
  unfold full_key_eqb.
  rewrite !andb_true_iff, !value_eqb_eq, !Bool.eqb_true_iff. tauto.
Qed.

(** ** The object store *)

Section StoreLemmas.

Implicit Types (h : heap) (l : loc) (e : PanelEntry) (es : list loc)
  (ents : list PanelEntry) (sel : string).

Lemma alloc_fresh (c : cell) h :
  exists l, alloc c h = Some (l, <[l := c]> h) /\ h !! l = None.
Proof.
  exists (fresh (dom h)). split; [reflexivity|].
  apply not_elem_of_dom, is_fresh.
Qed.

Lemma deref_entries_Some h es ents :
  deref_entries h es = Some ents <-> entries_at h es ents.
Proof.
  unfold deref_entries, entries_at. rewrite mapM_Some.
  split; intros H; (eapply Forall2_impl; [exact H|]); intros l e; simpl.
  - destruct (h !! l) as [[e'|]|]; congruence.
  - intros ->. reflexivity.
Qed.

Lemma entries_at_mono h h' es ents :
  h ⊆ h' -> entries_at h es ents -> entries_at h' es ents.
Proof.
  intros Hsub H. eapply Forall2_impl; [exact H|]. intros l e He.
  exact (lookup_weaken _ _ _ _ He Hsub).
Qed.

Lemma toggle_entry_spec sel l e h :
  h !! l = Some (CEntry e) ->
  exists l' h',
    toggle_entry sel l h = Some (l', h') /\ h ⊆ h' /\
    h' !! l' = Some (CEntry (toggled sel e)) /\
    (if String.eqb (panelName e) sel then h !! l' = None else l' = l /\ h' = h).
Proof.
  intros Hl. unfold toggle_entry, bind, read_cell, toggled. rewrite Hl.
  destruct (String.eqb (panelName e) sel).
  - destruct (alloc_fresh (CEntry {| panelName := panelName e; show := negb (show e) |}) h)
      as (l' & -> & Hfresh).
    exists l', (<[l' := CEntry {| panelName := panelName e; show := negb (show e) |}]> h).
    split; [reflexivity|]. split; [by apply insert_subseteq|].
    split; [apply lookup_insert_eq | exact Hfresh].
  - exists l, h. unfold ret. repeat split; auto.
Qed.

Lemma array_elems_map_spec sel es ents h :
  entries_at h es ents ->
  exists es' h',
    array_elems_map (toggle_entry sel) es h = Some (es', h') /\ h ⊆ h' /\
    entries_at h' es' (map (toggled sel) ents) /\
    Forall2 (replaced_or_same h sel) es es' /\
    (sel ∉ map panelName ents -> es' = es /\ h' = h).
Proof.
  intros Hents. revert h Hents. revert ents.
  induction es as [|l es IH]; intros ents h Hents.
  - apply Forall2_nil_inv_l in Hents as ->.
    exists [], h. repeat split; try constructor. reflexivity.
  - apply Forall2_cons_inv_l in Hents as (e & ents' & Hl & Hrest & ->).
    destruct (toggle_entry_spec sel l e h Hl) as (l' & h1 & Hrun & Hsub1 & Hl' & Hid).
    destruct (IH ents' h1 (entries_at_mono _ _ _ _ Hsub1 Hrest))
      as (es' & h2 & Hrun2 & Hsub2 & Hents2 & Hrel & Hnone).
    exists (l' :: es'), h2. simpl. unfold bind at 1. rewrite Hrun.
    unfold bind at 1. rewrite Hrun2. split; [reflexivity|].
    split; [etrans; eauto|].
    split; [constructor; [exact (lookup_weaken _ _ _ _ Hl' Hsub2) | exact Hents2]|].
    split.
    + constructor.
      * intros e0 He0. rewrite Hl in He0. injection He0 as <-.
        destruct (String.eqb (panelName e) sel); [exact Hid | apply Hid].
      * eapply Forall2_impl; [exact Hrel|]. intros a b Hab e0 He0.
        specialize (Hab e0 (lookup_weaken _ _ _ _ He0 Hsub1)).
        destruct (String.eqb (panelName e0) sel); [|exact Hab].
        destruct (h !! b) eqn:Hb; [|reflexivity].
        rewrite (lookup_weaken _ _ _ _ Hb Hsub1) in Hab. discriminate.
    + intros Hnot. rewrite not_elem_of_cons in Hnot. destruct Hnot as [Hne Hnot].
      destruct (String.eqb_spec (panelName e) sel) as [Heq|_]; [congruence|].
      destruct Hid as [-> ->]. destruct (Hnone Hnot) as [-> ->]. split; reflexivity.
Qed.

End StoreLemmas.

Section Updater.

Implicit Types (h : heap) (l : loc) (e : PanelEntry) (es : list loc)
  (ents : list PanelEntry) (sel : string).

Lemma panel_entries_Some h prev ents :
  panel_entries h prev = Some ents <->
  exists es, h !! prev = Some (CArray es) /\ entries_at h es ents.
Proof.
  unfold panel_entries. split.
  - destruct (h !! prev) as [[|es]|]; try discriminate.
    intros H. exists es. split; [reflexivity|]. by apply deref_entries_Some.
  - intros (es & -> & H). by apply deref_entries_Some.
Qed.

(** The updater on a well-formed collection: it succeeds, allocates the new
    array last, and leaves every existing cell as it was. *)
Lemma updater_spec sel prev es ents h :
  h !! prev = Some (CArray es) ->
  entries_at h es ents ->
  exists next es' h',
    panelShowHandler_updater sel prev h = Some (next, h') /\
    h !! next = None /\ h ⊆ h' /\
    h' !! next = Some (CArray es') /\
    entries_at h' es' (map (toggled sel) ents) /\
    Forall2 (replaced_or_same h sel) es es' /\
    (sel ∉ map panelName ents -> es' = es /\ h' = <[next := CArray es]> h).
Proof.
  intros Hprev Hents.
  destruct (array_elems_map_spec sel es ents h Hents)
    as (es' & h1 & Hrun & Hsub & Hents' & Hrel & Hnone).
  destruct (alloc_fresh (CArray es') h1) as (next & Halloc & Hfresh).
  exists next, es', (<[next := CArray es']> h1).
  assert (Hsub' : h1 ⊆ <[next := CArray es']> h1) by by apply insert_subseteq.
  split.
  { unfold panelShowHandler_updater, array_map, bind, read_array.
    rewrite Hprev, Hrun. exact Halloc. }
  split.
  { destruct (h !! next) eqn:Hn; [|reflexivity].
    rewrite (lookup_weaken _ _ _ _ Hn Hsub) in Hfresh. discriminate. }
  split; [etrans; eauto|].
  split; [apply lookup_insert_eq|].
  split; [exact (entries_at_mono _ _ _ _ Hsub' Hents')|].
  split; [exact Hrel|].
  intros Hnot. destruct (Hnone Hnot) as [-> ->]. split; reflexivity.
Qed.

Lemma toggled_name sel e : panelName (toggled sel e) = panelName e.
Proof. unfold toggled. by destruct (String.eqb (panelName e) sel). Qed.

Lemma toggled_names sel ents :
  map panelName (map (toggled sel) ents) = map panelName ents.
Proof.
  induction ents as [|e ents IH]; simpl; [reflexivity|].
  by rewrite toggled_name, IH.
Qed.

Lemma negb_neq (b : bool) : b <> negb b.
Proof. by destruct b. Qed.

End Updater.

(** ** View menu: the click handler *)

(** C1. For every panel-state collection and every clicked name that matches
    an entry, the click handler [panelShowHandler] replaces the panel state
    by what its updater returns: a new array (a location that did not exist;
    no existing cell is changed) of the same length in which, at every
    position, an entry whose [panelName] equals the clicked name is replaced
    by a fresh object with the same name and the [show] flag negated, and any
    other entry is the very same object.  Nothing else of the application
    state changes.  When names are unique, exactly one position has its flag
    negated. *)
Theorem C1_click_flips_matching_entry
    (h : heap) (st : app) (ents : list PanelEntry) (sel : string) :
  panel_entries h (panelState st) = Some ents ->
  sel ∈ map panelName ents ->
  exists st' h' es es' ents',
    panelShowHandler sel st h = Some (st', h') /\
    panelShowHandler_updater sel (panelState st) h = Some (panelState st', h') /\
    (flowsheetState st' = flowsheetState st /\
     console_errors st' = console_errors st /\ requests st' = requests st) /\
    h !! panelState st = Some (CArray es) /\ entries_at h es ents /\
    h !! panelState st' = None /\ h ⊆ h' /\
    h' !! panelState st' = Some (CArray es') /\ entries_at h' es' ents' /\
    length es' = length es /\ length ents' = length ents /\
    (forall i l e, es !! i = Some l -> ents !! i = Some e ->
       exists l' e', es' !! i = Some l' /\ ents' !! i = Some e' /\
         panelName e' = panelName e /\
         if String.eqb (panelName e) sel
         then show e' = negb (show e) /\ h !! l' = None
         else l' = l /\ e' = e) /\
    (exists i e, ents !! i = Some e /\ panelName e = sel /\
       ents' !! i = Some {| panelName := sel; show := negb (show e) |}) /\
    (NoDup (map panelName ents) ->
       exists i, forall j e e', ents !! j = Some e -> ents' !! j = Some e' ->
         (show e' = negb (show e) <-> j = i)).
Proof.
  intros Hwf Hsel.
  apply panel_entries_Some in Hwf as (es & Hprev & Hents).
  destruct (updater_spec sel (panelState st) es ents h Hprev Hents)
    as (next & es' & h' & Hrun & Hfresh & Hsub & Hnext & Hents' & Hrel & _).
  apply list_elem_of_lookup in Hsel as [i0 Hi0].
  rewrite list_lookup_fmap in Hi0.
  destruct (ents !! i0) as [e0|] eqn:He0; [|discriminate].
  simpl in Hi0. injection Hi0 as Hname0.
  assert (Hlook : forall j e, ents !! j = Some e ->
            map (toggled sel) ents !! j = Some (toggled sel e)).
  { intros j e Hj. by rewrite list_lookup_fmap, Hj. }
  exists {| panelState := next; flowsheetState := flowsheetState st;
            console_errors := console_errors st; requests := requests st |},
         h', es, es', (map (toggled sel) ents).
  cbn [panelState flowsheetState console_errors requests].
  split; [unfold panelShowHandler, setPanelState, bind; rewrite Hrun; reflexivity|].
  split; [exact Hrun|]. split; [by repeat split|].
  repeat (split; [assumption|]).
  split; [symmetry; exact (Forall2_length _ _ _ Hrel)|].
  split; [apply length_map|].
  split; [|split].
  - intros i l e Hl He.
    destruct (Forall2_lookup_l _ _ _ _ _ Hrel Hl) as (l' & Hl' & Hll').
    exists l', (toggled sel e).
    split; [exact Hl'|]. split; [by apply Hlook|].
    split; [apply toggled_name|].
    pose proof (Forall2_lookup_lr _ _ _ _ _ _ Hents Hl He) as Hcell.
    specialize (Hll' e Hcell). unfold toggled.
    destruct (String.eqb (panelName e) sel); simpl; auto.
  - exists i0, e0. split; [exact He0|]. split; [exact Hname0|].
    rewrite (Hlook _ _ He0). unfold toggled.
    rewrite Hname0, String.eqb_refl. reflexivity.
  - intros Hnodup. exists i0. intros j e e' Hj Hj'.
    rewrite (Hlook _ _ Hj) in Hj'. injection Hj' as <-. unfold toggled.
    destruct (String.eqb_spec (panelName e) sel) as [Heq|Hne]; simpl.
    + split; [|reflexivity]. intros _.
      eapply NoDup_lookup; [exact Hnodup| |].
      * rewrite list_lookup_fmap, Hj. simpl. reflexivity.
      * rewrite list_lookup_fmap, He0. simpl. congruence.
    + split.
      * intros Hflip. exfalso. exact (negb_neq _ Hflip).
      * intros ->. congruence.
Qed.

Lemma C1_witness :
  exists st' h' es es' ents',
    panelShowHandler "Report" initial_app initial_heap = Some (st', h') /\
    panelShowHandler_updater "Report" (panelState initial_app) initial_heap
      = Some (panelState st', h') /\
    (flowsheetState st' = flowsheetState initial_app /\
     console_errors st' = console_errors initial_app /\
     requests st' = requests initial_app) /\
    initial_heap !! panelState initial_app = Some (CArray es) /\
    entries_at initial_heap es initial_entries /\
    initial_heap !! panelState st' = None /\ initial_heap ⊆ h' /\
    h' !! panelState st' = Some (CArray es') /\ entries_at h' es' ents' /\
    length es' = length es /\ length ents' = length initial_entries /\
    (forall i l e, es !! i = Some l -> initial_entries !! i = Some e ->
       exists l' e', es' !! i = Some l' /\ ents' !! i = Some e' /\
         panelName e' = panelName e /\
         if String.eqb (panelName e) "Report"
         then show e' = negb (show e) /\ initial_heap !! l' = None
         else l' = l /\ e' = e) /\
    (exists i e, initial_entries !! i = Some e /\ panelName e = "Report" /\
       ents' !! i = Some {| panelName := "Report"; show := negb (show e) |}) /\
    (NoDup (map panelName initial_entries) ->
       exists i, forall j e e', initial_entries !! j = Some e -> ents' !! j = Some e' ->
         (show e' = negb (show e) <-> j = i)).
Proof.
  apply (C1_click_flips_matching_entry initial_heap initial_app initial_entries "Report").
  - vm_compute. reflexivity.
  - apply (bool_decide_unpack _). vm_compute. exact I.
Defined.

Lemma click_step (sel : string) (st : app) (h : heap) (ents : list PanelEntry) :
  panel_entries h (panelState st) = Some ents ->
  exists st' h' ents',
    panelShowHandler sel st h = Some (st', h') /\
    panel_entries h' (panelState st') = Some ents' /\
    ents' = map (toggled sel) ents /\
    flowsheetState st' = flowsheetState st.
Proof.
  intros Hwf. apply panel_entries_Some in Hwf as (es & Hprev & Hents).
  destruct (updater_spec sel _ es ents h Hprev Hents)
    as (next & es' & h' & Hrun & _ & _ & Hnext & Hents' & _ & _).
  eexists _, h', (map (toggled sel) ents).
  split; [unfold panelShowHandler, setPanelState, bind; rewrite Hrun; reflexivity|].
  simpl. split; [apply panel_entries_Some; eauto|]. split; reflexivity.
Qed.

(** C9. Every update the click handler applies keeps the length of the
    collection, the [panelName] at every position and hence the order of the
    entries; only [show] flags can differ. *)
Theorem C9_click_preserves_length_names_order
    (h : heap) (st : app) (ents : list PanelEntry) (sel : string) :
  panel_entries h (panelState st) = Some ents ->
  exists st' h' ents',
    panelShowHandler sel st h = Some (st', h') /\
    panel_entries h' (panelState st') = Some ents' /\
    length ents' = length ents /\
    map panelName ents' = map panelName ents /\
    (forall i e, ents !! i = Some e ->
       exists e', ents' !! i = Some e' /\ panelName e' = panelName e /\
                  (show e' = show e \/ show e' = negb (show e))) /\
    flowsheetState st' = flowsheetState st.
Proof.
  intros Hwf.
  destruct (click_step sel st h ents Hwf) as (st' & h' & ents' & Hrun & Hwf' & -> & Hfs).
  exists st', h', (map (toggled sel) ents).
  split; [exact Hrun|]. split; [exact Hwf'|].
  split; [apply length_map|]. split; [apply toggled_names|].
  split; [|exact Hfs].
  intros i e He. exists (toggled sel e).
  split; [by rewrite list_lookup_fmap, He|].
  split; [apply toggled_name|].
  unfold toggled. destruct (String.eqb (panelName e) sel); simpl; auto.
Qed.

Lemma C9_witness :
  exists st' h' ents',
    panelShowHandler "Variables" initial_app initial_heap = Some (st', h') /\
    panel_entries h' (panelState st') = Some ents' /\
    length ents' = length initial_entries /\
    map panelName ents' = map panelName initial_entries /\
    (forall i e, initial_entries !! i = Some e ->
       exists e', ents' !! i = Some e' /\ panelName e' = panelName e /\
                  (show e' = show e \/ show e' = negb (show e))) /\
    flowsheetState st' = flowsheetState initial_app.
Proof.
  apply (C9_click_preserves_length_names_order initial_heap initial_app initial_entries).
  vm_compute. reflexivity.
Defined.

(** C10. When the selected name matches no entry, the updater allocates a new
    outer array holding exactly the references of the old one and does
    nothing else: the store is the old store plus that one array cell. *)
Theorem C10_click_on_unknown_name_keeps_every_entry
    (h : heap) (prev : loc) (ents : list PanelEntry) (sel : string) :
  panel_entries h prev = Some ents ->
  sel ∉ map panelName ents ->
  exists next es,
    h !! prev = Some (CArray es) /\
    h !! next = None /\
    panelShowHandler_updater sel prev h = Some (next, <[next := CArray es]> h) /\
    panel_entries (<[next := CArray es]> h) next = Some ents.
Proof.
  intros Hwf Hnot. apply panel_entries_Some in Hwf as (es & Hprev & Hents).
  destruct (updater_spec sel prev es ents h Hprev Hents)
    as (next & es' & h' & Hrun & Hfresh & Hsub & Hnext & _ & _ & Hnone).
  destruct (Hnone Hnot) as [-> ->].
  exists next, es. repeat (split; [assumption|]).
  apply panel_entries_Some. exists es. split; [exact Hnext|].
  exact (entries_at_mono _ _ _ _ Hsub Hents).
Qed.

Lemma C10_witness :
  exists next es,
    initial_heap !! panelState initial_app = Some (CArray es) /\
    initial_heap !! next = None /\
    panelShowHandler_updater "Plots" (panelState initial_app) initial_heap
      = Some (next, <[next := CArray es]> initial_heap) /\
    panel_entries (<[next := CArray es]> initial_heap) next = Some initial_entries.
Proof.
  apply (C10_click_on_unknown_name_keeps_every_entry
           initial_heap (panelState initial_app) initial_entries "Plots").
  - vm_compute. reflexivity.
  - apply (bool_decide_unpack _). vm_compute. exact I.
Defined.

(** C6. The panel state created at start-up is, in order, Flowsheet=true,
    Variables=true, Stream Table=true, Report=false, Diagnostics=true; one
    click on "Stream Table" gives the same sequence with Stream Table=false. *)
Theorem C6_initial_state_and_first_click :
  panel_entries initial_heap (panelState initial_app)
    = Some [ mkPanelEntry "Flowsheet" true; mkPanelEntry "Variables" true;
             mkPanelEntry "Stream Table" true; mkPanelEntry "Report" false;
             mkPanelEntry "Diagnostics" true ] /\
  flowsheetState initial_app = VNull /\
  exists st' h',
    panelShowHandler "Stream Table" initial_app initial_heap = Some (st', h') /\
    panel_entries h' (panelState st')
      = Some [ mkPanelEntry "Flowsheet" true; mkPanelEntry "Variables" true;
               mkPanelEntry "Stream Table" false; mkPanelEntry "Report" false;
               mkPanelEntry "Diagnostics" true ].
Proof.
  split; [vm_compute; reflexivity|]. split; [reflexivity|].
  destruct (panelShowHandler "Stream Table" initial_app initial_heap)
    as [[st' h']|] eqn:E; [|vm_compute in E; discriminate].
  exists st', h'. split; [reflexivity|].
  vm_compute in E. injection E as <- <-. vm_compute. reflexivity.
Qed.

(** ** View menu: the rendered list *)

Lemma append_empty_r (s : string) : s +:+ EmptyString = s.
Proof.
  induction s as [|c s IH]; [reflexivity|].
  change (String c (s +:+ EmptyString) = String c s). by rewrite IH.
Qed.

Lemma view_item_shows (css : string -> string) (e : PanelEntry) (i : nat) :
  text_content (view_item css e i) = panelName e /\
  has_icon faCheck (view_item css e i) = show e /\
  prop_lookup "onClick" (match view_item css e i with
                         | Element _ props _ => props
                         | Expr _ => []
                         end) = Some (POnClick (panelName e)).
Proof.
  split; [|split; [|reflexivity]].
  - unfold view_item. destruct (show e); simpl; apply append_empty_r.
  - unfold view_item. destruct (show e); reflexivity.
Qed.

Lemma viewList_entries (css : string -> string) (h : heap) (st : app)
    (ents : list PanelEntry) :
  panel_entries h (panelState st) = Some ents ->
  viewList css h st = Some (imap (fun index el => view_item css el index) ents).
Proof.
  intros (es & Hprev & Hents)%panel_entries_Some.
  unfold viewList. rewrite Hprev.
  assert (Hcells : deref_cells h es = Some (map CEntry ents)).
  { unfold deref_cells. apply mapM_Some. apply Forall2_fmap_r. exact Hents. }
  rewrite Hcells. f_equal. apply imap_fmap.
Qed.

(** C8. For every panel-state collection the View menu renders exactly one
    item per entry, in collection order; each item displays the entry's
    [panelName] (and clicking it selects that name), and carries the check
    icon if and only if the entry's [show] flag is true. *)
Theorem C8_view_list_mirrors_panel_state
    (css : string -> string) (h : heap) (st : app) (ents : list PanelEntry) :
  panel_entries h (panelState st) = Some ents ->
  exists items,
    viewList css h st = Some items /\
    length items = length ents /\
    map text_content items = map panelName ents /\
    (forall i e, ents !! i = Some e ->
       exists item, items !! i = Some item /\
         text_content item = panelName e /\
         (has_icon faCheck item = true <-> show e = true) /\
         item = view_item css e i) /\
    (forall i item, items !! i = Some item -> exists e, ents !! i = Some e).
Proof.
  intros Hwf. rewrite (viewList_entries css h st ents Hwf).
  eexists. split; [reflexivity|].
  split; [apply length_imap|].
  split.
  { apply list_eq. intros i.
    rewrite !list_lookup_fmap, list_lookup_imap.
    destruct (ents !! i) as [e|]; [|reflexivity].
    change (Some (text_content (view_item css e i)) = Some (panelName e)).
    f_equal. apply view_item_shows. }
  split.
  - intros i e He. exists (view_item css e i).
    split; [by rewrite list_lookup_imap, He|].
    destruct (view_item_shows css e i) as (Ht & Hc & _).
    split; [exact Ht|]. split; [by rewrite Hc | reflexivity].
  - intros i item Hitem. rewrite list_lookup_imap in Hitem.
    destruct (ents !! i) as [e|]; [eauto | discriminate].
Qed.

Lemma C8_witness :
  exists items,
    viewList (fun cls => cls) initial_heap initial_app = Some items /\
    length items = length initial_entries /\
    map text_content items = map panelName initial_entries /\
    (forall i e, initial_entries !! i = Some e ->
       exists item, items !! i = Some item /\
         text_content item = panelName e /\
         (has_icon faCheck item = true <-> show e = true) /\
         item = view_item (fun cls => cls) e i) /\
    (forall i item, items !! i = Some item -> exists e, initial_entries !! i = Some e).
Proof.
  apply (C8_view_list_mirrors_panel_state (fun cls => cls) initial_heap initial_app
           initial_entries).
  vm_compute. reflexivity.
Defined.

(** ** Layout composer: what is mounted *)

(** C2. For every assignment of the visibility flags, in both layouts, each
    region (its panel content component) is mounted in the render output
    exactly when its flag is true, and no element of the output is styled
    [display: none]. *)
Theorem C2_region_mounted_iff_flag (css : string -> string) (c : config) :
  (exists r, Horizontal.FlowsheetWrapper css (keyed_context c) = Normal r /\
     mounted Flowsheet (output r) = cfg_fv c /\
     mounted FlowsheetHeader (output r) = cfg_fv c /\
     mounted StreamTable (output r) = cfg_streamTable c /\
     mounted FlowsheetDiagnostics (output r) = cfg_diagnostics c /\
     mounted MinimizedBar (output r) = true /\
     styled_hidden (output r) = false) /\
  (exists r, Vertical.FlowsheetWrapper (keyed_context c) = Normal r /\
     mounted Flowsheet (output r) = cfg_fv c /\
     mounted FlowsheetHeader (output r) = cfg_fv c /\
     mounted Flowsheet_variable (output r) = cfg_variables c /\
     mounted FlowsheetVariablesHeader (output r) = cfg_variables c /\
     mounted StreamTable (output r) = cfg_streamTable c /\
     styled_hidden (output r) = false).
Proof.
  destruct c as [id port fv st dg vr].
  split; eexists; (split; [reflexivity|]);
    destruct fv, st, dg, vr; repeat split; reflexivity.
Qed.

(** ** Layout composer on the state the provider supplies *)

Lemma reify_S (fuel : nat) (h : heap) (l : loc) :
  reify (S fuel) h l
  = match h !! l with
    | Some (CEntry e) => Some (entry_value e)
    | Some (CArray es) =>
        match mapM (reify fuel h) es with
        | Some vs => Some (VArr vs)
        | None => None
        end
    | None => None
    end.
Proof. reflexivity. Qed.

Lemma provider_context_entries (h : heap) (st : app) (ents : list PanelEntry) :
  panel_entries h (panelState st) = Some ents ->
  provider_context h st = Some (context_value ents (flowsheetState st)).
Proof.
  intros (es & Hprev & Hents)%panel_entries_Some.
  unfold provider_context, context_value.
  destruct (size h) as [|n] eqn:Hsize.
  { apply map_size_empty_iff in Hsize. subst h. by rewrite lookup_empty in Hprev. }
  rewrite reify_S, Hprev.
  assert (Hvs : mapM (reify (S n) h) es = Some (map entry_value ents)).
  { apply mapM_Some. apply Forall2_fmap_r.
    eapply Forall2_impl; [exact Hents|]. intros l e Hl. by rewrite reify_S, Hl. }
  by rewrite Hvs.
Qed.

Lemma wrappers_throw_on_array_state (css : string -> string)
    (ents : list PanelEntry) (fs : value) :
  Horizontal.FlowsheetWrapper css (context_value ents fs)
    = Throw (TypeError "Cannot read properties of undefined (reading 'show')") /\
  Vertical.FlowsheetWrapper (context_value ents fs)
    = Throw (TypeError "Cannot read properties of undefined (reading 'show')").
Proof. split; reflexivity. Qed.

Lemma clicks_well_formed (names : list string) (st : app) (h : heap)
    (ents : list PanelEntry) :
  panel_entries h (panelState st) = Some ents ->
  exists st' h' ents',
    clicks names st h = Some (st', h') /\
    panel_entries h' (panelState st') = Some ents' /\
    map panelName ents' = map panelName ents /\
    flowsheetState st' = flowsheetState st.
Proof.
  revert st h ents. induction names as [|n names IH]; intros st h ents Hwf.
  - exists st, h, ents. repeat split; auto.
  - destruct (click_step n st h ents Hwf) as (st1 & h1 & ents1 & Hrun & Hwf1 & -> & Hf1).
    destruct (IH st1 h1 _ Hwf1) as (st2 & h2 & ents2 & Hrun2 & Hwf2 & Hn2 & Hf2).
    exists st2, h2, ents2. simpl. unfold bind. rewrite Hrun.
    repeat split; [exact Hrun2 | exact Hwf2 | | congruence].
    rewrite Hn2. apply toggled_names.
Qed.

(** C3 (evaluation of the code).  After any sequence of View-menu clicks from
    the initial state the provider's panel state is a well-formed array and
    the View menu renders; but the value the provider supplies as
    [panelState] is that array, which has no [fv] property, so both layout
    composers throw a TypeError at their first read of a visibility flag
    ([panelState.fv.show]). *)
Theorem C3_layout_composer_throws_on_provider_state
    (css : string -> string) (names : list string) :
  exists st h items ctx,
    clicks names initial_app initial_heap = Some (st, h) /\
    viewList css h st = Some items /\
    provider_context h st = Some ctx /\
    get_prop ctx "server_port" = Normal VUndefined /\
    get_prop ctx "fv_id" = Normal VUndefined /\
    Horizontal.FlowsheetWrapper css ctx
      = Throw (TypeError "Cannot read properties of undefined (reading 'show')") /\
    Vertical.FlowsheetWrapper ctx
      = Throw (TypeError "Cannot read properties of undefined (reading 'show')").
Proof.
  assert (Hinit : panel_entries initial_heap (panelState initial_app) = Some initial_entries)
    by (vm_compute; reflexivity).
  destruct (clicks_well_formed names _ _ _ Hinit) as (st & h & ents & Hrun & Hwf & _ & _).
  exists st, h. rewrite (viewList_entries css h st ents Hwf).
  rewrite (provider_context_entries h st ents Hwf).
  eexists _, _. split; [exact Hrun|]. split; [reflexivity|]. split; [reflexivity|].
  split; [reflexivity|]. split; [reflexivity|].
  apply wrappers_throw_on_array_state.
Qed.

(** ** Server port *)

(** C7. The server port the layout composer hands to the driver is 8000 when
    the detected port is loosely equal to "5173" -- for a string port: when it
    is the string "5173"; for a numeric port: when it is 5173 -- and is the
    detected port itself otherwise. *)
Theorem C7_server_port_fallback
    (css : string -> string) (id : value) (fv st dg vr : bool) :
  let used port :=
    ports_used (lifecycle (Horizontal.FlowsheetWrapper css)
                  [keyed_context (mkConfig id port fv st dg vr)]) in
  (forall port, used port = [resolve_server_port port]) /\
  (forall port, resolve_server_port port
                = if loose_eq_5173 port then VNum 8000 else port) /\
  (forall s, used (VStr s) = [if decide (s = "5173") then VNum 8000 else VStr s]) /\
  (forall n, used (VNum n) = [if decide (n = 5173%Z) then VNum 8000 else VNum n]) /\
  used VUndefined = [VUndefined].
Proof.
  intros used.
  assert (Hused : forall port, used port = [resolve_server_port port]) by reflexivity.
  split; [exact Hused|]. split; [reflexivity|]. split; [|split; [|reflexivity]].
  - intros s. rewrite Hused. unfold resolve_server_port, loose_eq_5173.
    destruct (String.eqb_spec s "5173"); case_decide; congruence.
  - intros n. rewrite Hused. unfold resolve_server_port, loose_eq_5173.
    destruct (Z.eqb_spec n 5173); case_decide; congruence.
Qed.

(** ** Demo data loader *)

(** C5 (as the code has it).  [loadDemoFlowsheet] issues one GET for the demo
    document.  If the request is rejected -- with axios's defaults: no
    answer, or a status outside 200..299 --, the flowsheet state is left as it
    was ([null] from start-up), exactly that one error is logged and the call
    completes normally.  If it is fulfilled, the flowsheet state becomes the
    response data and nothing is logged: the parsed document, or, for a body
    that is not JSON, the raw text of the body. *)
Theorem C5_demo_loader_outcomes
    (network : string -> settled response) (x : exchange) (st : app) :
  flowsheetState initial_app = VNull /\
  match network demo_url with
  | Rejected err =>
      loadDemoFlowsheet network st
      = (Normal tt,
         {| panelState := panelState st; flowsheetState := flowsheetState st;
            console_errors := console_errors st ++ [err];
            requests := requests st ++ [demo_url] |})
  | Fulfilled res =>
      loadDemoFlowsheet network st
      = (Normal tt,
         {| panelState := panelState st; flowsheetState := data res;
            console_errors := console_errors st;
            requests := requests st ++ [demo_url] |})
  end /\
  loadDemoFlowsheet (fun _ => axios_default x) st
  = (Normal tt,
     match x with
     | NoAnswer =>
         {| panelState := panelState st; flowsheetState := flowsheetState st;
            console_errors := console_errors st ++ [AxiosError NetworkError];
            requests := requests st ++ [demo_url] |}
     | Answer status b =>
         if (200 <=? status)%Z && (status <? 300)%Z
         then {| panelState := panelState st;
                 flowsheetState := match b with
                                   | JsonText doc => doc
                                   | NotJson raw => VStr raw
                                   end;
                 console_errors := console_errors st;
                 requests := requests st ++ [demo_url] |}
         else {| panelState := panelState st; flowsheetState := flowsheetState st;
                 console_errors := console_errors st ++ [AxiosError (BadStatus status)];
                 requests := requests st ++ [demo_url] |}
     end).
Proof.
  split; [reflexivity|]. split.
  - unfold loadDemoFlowsheet, try_catch, xbind, axios_get, demo_url.
    destruct (network "/data/demo_flowsheet.json"); reflexivity.
  - unfold loadDemoFlowsheet, try_catch, xbind, axios_get, axios_default, demo_url.
    destruct x as [|status b]; [reflexivity|].
    destruct ((200 <=? status)%Z && (status <? 300)%Z); reflexivity.
Qed.

(** C5 as stated fails: a 200 answer whose body is not JSON is a failing
    fetch, yet the loader stores the raw body and logs nothing. *)
Lemma C5_counterexample :
  ~ failure_leaves_null_and_logs_once (Answer 200 (NotJson "{bad json")).
Proof.
  unfold failure_leaves_null_and_logs_once. intros H.
  destruct (H eq_refl) as [err Herr]. vm_compute in Herr. discriminate Herr.
Qed.

(** ** Driver life cycle in the horizontal layout *)

Section Lifecycle.

Variable css : string -> string.

Lemma renders_keyed (cfgs : list config) :
  forall (prev : config) (n : nat) (tr : list event),
    trace (renders (Horizontal.FlowsheetWrapper css) (map keyed_context cfgs)
             (Some {| last_deps := [VBool (cfg_fv prev); VBool (cfg_streamTable prev)];
                      cleanup := Some (cleanToolBarEvent n) |})
             {| next_inst := S n; trace := tr |}).2
    = (tr ++ expected_after n prev cfgs)%list.
Proof.
  induction cfgs as [|c rest IH]; intros prev n tr; [reflexivity|].
  destruct prev as [pid pport pf ps pd pv], c as [cid cport cf cs cd cv].
  pose proof (IH (mkConfig cid cport cf cs cd cv)) as IHc.
  destruct pf, cf, ps, cs; simpl in *;
    first [ exact (IHc n tr)
          | (etrans; [exact (IHc (S n) _)|]); simpl;
            rewrite <- !app_assoc; reflexivity ].
Qed.

Lemma wrapper_trace_eq (cfgs : list config) :
  wrapper_trace css cfgs =
  match cfgs with
  | [] => []
  | c :: rest => create_event 0 c :: expected_after 0 c rest
  end.
Proof.
  destruct cfgs as [|c rest]; [reflexivity|].
  unfold wrapper_trace, lifecycle. simpl.
  exact (renders_keyed rest c 0 [create_event 0 c]).
Qed.

Lemma creations_expected_after (cfgs : list config) :
  forall n prev, creations (expected_after n prev cfgs) = changes_from flag_key_eqb prev cfgs.
Proof.
  induction cfgs as [|c rest IH]; intros n prev; simpl; [reflexivity|].
  destruct (flag_key_eqb prev c); simpl; by rewrite IH.
Qed.

Lemma released_in_turn_expected_after (cfgs : list config) :
  forall n prev first,
    released_in_turn n (create_event n first :: expected_after n prev cfgs) = true.
Proof.
  induction cfgs as [|c rest IH]; intros n prev first.
  - simpl. by rewrite Nat.eqb_refl.
  - cbn [expected_after]. destruct (flag_key_eqb prev c).
    + exact (IH n c first).
    + change (Nat.eqb n n && Nat.eqb n n
              && released_in_turn (S n) (create_event (S n) c :: expected_after (S n) c rest)
              = true).
      by rewrite Nat.eqb_refl, IH.
Qed.

Lemma creates_expected_after (cfgs : list config) :
  forall n prev e,
    e ∈ expected_after n prev cfgs -> is_create e = true ->
    exists m c, c ∈ cfgs /\ e = create_event m c.
Proof.
  induction cfgs as [|c rest IH]; intros n prev e; simpl.
  - intros ->%list_elem_of_singleton. discriminate.
  - destruct (flag_key_eqb prev c).
    + intros He Hc. destruct (IH _ _ _ He Hc) as (m & c' & Hin & ->).
      exists m, c'. split; [by right | reflexivity].
    + intros He Hc. apply elem_of_cons in He as [->|He]; [discriminate|].
      apply elem_of_cons in He as [->|He].
      * exists (S n), c. split; [by left | reflexivity].
      * destruct (IH _ _ _ He Hc) as (m & c' & Hin & ->).
        exists m, c'. split; [by right | reflexivity].
Qed.

End Lifecycle.

(** C4 (as the code has it).  In the horizontal layout, over any sequence of
    configurations, the effect creates one driver instance at mount and one
    per change of the pair (flowsheet-visible, stream-table-visible) -- the
    dependency array of the effect; each instance is released before the next
    one is created and the last one at unmount; every instance is constructed
    from the identifier, resolved port and flags of the render that created
    it. *)
Theorem C4_one_driver_per_flag_change (css : string -> string) (cfgs : list config) :
  one_driver_per_change flag_key_eqb css cfgs /\
  released_in_turn 0 (wrapper_trace css cfgs) = true /\
  (forall e, e ∈ wrapper_trace css cfgs -> is_create e = true ->
     exists n c, c ∈ cfgs /\ e = create_event n c).
Proof.
  unfold one_driver_per_change. rewrite wrapper_trace_eq.
  destruct cfgs as [|c rest]; [repeat split; intros e He; inversion He|].
  split; [|split].
  - simpl. by rewrite creations_expected_after.
  - apply released_in_turn_expected_after.
  - intros e He Hc. apply elem_of_cons in He as [->|He].
    + exists 0, c. split; [by left | reflexivity].
    + destruct (creates_expected_after _ _ _ _ He Hc) as (m & c' & Hin & ->).
      exists m, c'. split; [by right | reflexivity].
Qed.

(** C4 as stated fails: when only the identifier changes between two renders
    the configuration key changes, yet no second instance is created. *)
Lemma C4_counterexample :
  ~ one_driver_per_change full_key_eqb (fun cls => cls)
      [ mkConfig (VStr "fv-1") (VStr "8000") true true true false;
        mkConfig (VStr "fv-2") (VStr "8000") true true true false ].
Proof. unfold one_driver_per_change. vm_compute. discriminate. Qed.

(** * Further properties of the code *)

(** ** Sequences of clicks *)

Section ClickSequences.

Implicit Types (h : heap) (st : app) (ents : list PanelEntry) (names : list string).

Lemma after_clicks_nil e : after_clicks [] e = e.
Proof. destruct e as [n s]. unfold after_clicks. simpl. by rewrite xorb_false_r. Qed.

Lemma after_clicks_cons n rest e :
  after_clicks rest (toggled n e) = after_clicks (n :: rest) e.
Proof.
  unfold after_clicks, toggled. simpl.
  destruct (String.eqb (panelName e) n); simpl; [|reflexivity].
  rewrite Nat.odd_succ, <- Nat.negb_odd.
  by destruct (show e), (Nat.odd (click_count rest (panelName e))).
Qed.

Lemma click_count_perm names names' name :
  Permutation names names' -> click_count names name = click_count names' name.
Proof.
  induction 1 as [|x l l' _ IH|x y l|l l' l'' _ IH1 _ IH2]; simpl.
  - reflexivity.
  - by rewrite IH.
  - destruct (String.eqb name x), (String.eqb name y); reflexivity.
  - by rewrite IH1.
Qed.

(** One click, with everything it does to the store. *)
Lemma click_step_store sel st h ents :
  panel_entries h (panelState st) = Some ents ->
  exists st' h',
    panelShowHandler sel st h = Some (st', h') /\
    h ⊆ h' /\ h !! panelState st' = None /\
    panel_entries h' (panelState st') = Some (map (toggled sel) ents) /\
    flowsheetState st' = flowsheetState st /\
    console_errors st' = console_errors st /\ requests st' = requests st.
Proof.
  intros Hwf. apply panel_entries_Some in Hwf as (es & Hprev & Hents).
  destruct (updater_spec sel _ es ents h Hprev Hents)
    as (next & es' & h' & Hrun & Hfresh & Hsub & Hnext & Hents' & _ & _).
  eexists _, h'.
  split; [unfold panelShowHandler, setPanelState, bind; rewrite Hrun; reflexivity|].
  simpl. split; [exact Hsub|]. split; [exact Hfresh|].
  split; [apply panel_entries_Some; eauto|]. repeat split.
Qed.

Lemma panel_entries_mono h h' prev ents :
  h ⊆ h' -> panel_entries h prev = Some ents -> panel_entries h' prev = Some ents.
Proof.
  intros Hsub (es & Hprev & Hents)%panel_entries_Some.
  apply panel_entries_Some. exists es.
  split; [exact (lookup_weaken _ _ _ _ Hprev Hsub) | exact (entries_at_mono _ _ _ _ Hsub Hents)].
Qed.

Lemma clicks_store names st h ents :
  panel_entries h (panelState st) = Some ents ->
  exists st' h',
    clicks names st h = Some (st', h') /\
    h ⊆ h' /\
    panel_entries h' (panelState st') = Some (map (after_clicks names) ents) /\
    (names <> [] -> h !! panelState st' = None) /\
    flowsheetState st' = flowsheetState st /\
    console_errors st' = console_errors st /\ requests st' = requests st.
Proof.
  revert st h ents. induction names as [|n names IH]; intros st h ents Hwf.
  - exists st, h. split; [reflexivity|]. split; [reflexivity|].
    split; [|by repeat split].
    assert (Hid : map (after_clicks []) ents = ents).
    { clear. induction ents as [|e ents IHe]; simpl; [reflexivity|].
      by rewrite after_clicks_nil, IHe. }
    by rewrite Hid.
  - destruct (click_step_store n st h ents Hwf)
      as (st1 & h1 & Hrun & Hsub1 & Hfresh1 & Hwf1 & Hf1 & Hc1 & Hr1).
    destruct (IH st1 h1 _ Hwf1) as (st2 & h2 & Hrun2 & Hsub2 & Hwf2 & Hfresh2 & Hf2 & Hc2 & Hr2).
    exists st2, h2. simpl. unfold bind. rewrite Hrun.
    split; [exact Hrun2|]. split; [etrans; eauto|].
    split.
    { rewrite Hwf2. f_equal. rewrite map_map. apply map_ext.
      intros e. apply after_clicks_cons. }
    split; [|repeat split; congruence].
    intros _. destruct names as [|m names].
    + simpl in Hrun2. unfold ret in Hrun2. injection Hrun2 as <- <-. exact Hfresh1.
    + assert (Hnone : h1 !! panelState st2 = None) by (apply Hfresh2; discriminate).
      destruct (h !! panelState st2) eqn:E; [|reflexivity].
      rewrite (lookup_weaken _ _ _ _ E Hsub1) in Hnone. discriminate.
Qed.

End ClickSequences.

(** X1. After any sequence of clicks on a well-formed panel state, every
    entry keeps its name and position, and its flag is the original one
    flipped exactly when its name was clicked an odd number of times (so two
    clicks on one name restore every flag). *)
Theorem click_sequence_parity
    (names : list string) (st : app) (h : heap) (ents : list PanelEntry) :
  panel_entries h (panelState st) = Some ents ->
  exists st' h' ents',
    clicks names st h = Some (st', h') /\
    panel_entries h' (panelState st') = Some ents' /\
    length ents' = length ents /\
    (forall i e, ents !! i = Some e ->
       ents' !! i = Some {| panelName := panelName e;
                            show := xorb (show e)
                                      (Nat.odd (click_count names (panelName e))) |}) /\
    (forall sel, clicks [sel; sel] st h <> None /\
       forall st2 h2, clicks [sel; sel] st h = Some (st2, h2) ->
         panel_entries h2 (panelState st2) = Some ents).
Proof.
  intros Hwf.
  destruct (clicks_store names st h ents Hwf) as (st' & h' & Hrun & _ & Hwf' & _).
  exists st', h', (map (after_clicks names) ents).
  split; [exact Hrun|]. split; [exact Hwf'|]. split; [apply length_map|].
  split.
  - intros i e He. by rewrite list_lookup_fmap, He.
  - intros sel.
    destruct (clicks_store [sel; sel] st h ents Hwf) as (st2 & h2 & Hrun2 & _ & Hwf2 & _).
    rewrite Hrun2. split; [discriminate|].
    intros ? ? [= <- <-]. rewrite Hwf2. f_equal.
    rewrite <- (map_id ents) at 2. apply map_ext. intros [n s].
    unfold after_clicks. simpl.
    destruct (String.eqb n sel); simpl; by rewrite xorb_false_r.
Qed.

Lemma click_sequence_parity_witness :
  exists st' h' ents',
    clicks ["Report"; "Flowsheet"; "Report"] initial_app initial_heap = Some (st', h') /\
    panel_entries h' (panelState st') = Some ents' /\
    length ents' = length initial_entries /\
    (forall i e, initial_entries !! i = Some e ->
       ents' !! i = Some {| panelName := panelName e;
                            show := xorb (show e)
                                      (Nat.odd (click_count ["Report"; "Flowsheet"; "Report"]
                                                  (panelName e))) |}) /\
    (forall sel, clicks [sel; sel] initial_app initial_heap <> None /\
       forall st2 h2, clicks [sel; sel] initial_app initial_heap = Some (st2, h2) ->
         panel_entries h2 (panelState st2) = Some initial_entries).
Proof.
  apply (click_sequence_parity ["Report"; "Flowsheet"; "Report"] initial_app initial_heap
           initial_entries).
  vm_compute. reflexivity.
Defined.

(** X2. The order of the clicks does not matter: two click sequences that are
    permutations of each other lead to the same flags. *)
Theorem click_order_is_irrelevant
    (names names' : list string) (st : app) (h : heap) (ents : list PanelEntry) :
  panel_entries h (panelState st) = Some ents ->
  Permutation names names' ->
  exists st1 h1 st2 h2 ents',
    clicks names st h = Some (st1, h1) /\
    clicks names' st h = Some (st2, h2) /\
    panel_entries h1 (panelState st1) = Some ents' /\
    panel_entries h2 (panelState st2) = Some ents'.
Proof.
  intros Hwf Hperm.
  destruct (clicks_store names st h ents Hwf) as (st1 & h1 & Hrun1 & _ & Hwf1 & _).
  destruct (clicks_store names' st h ents Hwf) as (st2 & h2 & Hrun2 & _ & Hwf2 & _).
  exists st1, h1, st2, h2, (map (after_clicks names) ents).
  repeat (split; [assumption|]).
  rewrite Hwf2. f_equal. apply map_ext. intros e. unfold after_clicks.
  by rewrite (click_count_perm _ _ _ Hperm).
Qed.

Lemma click_order_is_irrelevant_witness :
  exists st1 h1 st2 h2 ents',
    clicks ["Report"; "Variables"] initial_app initial_heap = Some (st1, h1) /\
    clicks ["Variables"; "Report"] initial_app initial_heap = Some (st2, h2) /\
    panel_entries h1 (panelState st1) = Some ents' /\
    panel_entries h2 (panelState st2) = Some ents'.
Proof.
  apply (click_order_is_irrelevant ["Report"; "Variables"] ["Variables"; "Report"]
           initial_app initial_heap initial_entries).
  - vm_compute. reflexivity.
  - apply perm_swap.
Defined.

(** X3. Clicks never modify what exists: after any click sequence the store
    extends the old one, the array the state held before still denotes the
    entries it denoted, and (after at least one click) the state holds an
    array that did not exist before. *)
Theorem clicks_never_mutate
    (names : list string) (st : app) (h : heap) (ents : list PanelEntry) :
  panel_entries h (panelState st) = Some ents ->
  exists st' h',
    clicks names st h = Some (st', h') /\
    h ⊆ h' /\
    panel_entries h' (panelState st) = Some ents /\
    (names <> [] -> h !! panelState st' = None /\ panelState st' <> panelState st).
Proof.
  intros Hwf.
  destruct (clicks_store names st h ents Hwf) as (st' & h' & Hrun & Hsub & _ & Hfresh & _).
  exists st', h'. split; [exact Hrun|]. split; [exact Hsub|].
  split; [exact (panel_entries_mono _ _ _ _ Hsub Hwf)|].
  intros Hne. split; [by apply Hfresh|].
  intros Heq. specialize (Hfresh Hne). rewrite Heq in Hfresh.
  apply panel_entries_Some in Hwf as (es & Hprev & _). congruence.
Qed.

Lemma clicks_never_mutate_witness :
  exists st' h',
    clicks ["Diagnostics"; "Report"] initial_app initial_heap = Some (st', h') /\
    initial_heap ⊆ h' /\
    panel_entries h' (panelState initial_app) = Some initial_entries /\
    (["Diagnostics"; "Report"] <> [] ->
     initial_heap !! panelState st' = None /\ panelState st' <> panelState initial_app).
Proof.
  apply (clicks_never_mutate ["Diagnostics"; "Report"] initial_app initial_heap
           initial_entries).
  vm_compute. reflexivity.
Defined.

(** ** What a click allocates *)

Lemma toggle_entry_size sel l e (h : heap) l' (h' : heap) :
  h !! l = Some (CEntry e) ->
  toggle_entry sel l h = Some (l', h') ->
  size h' = size h + (if String.eqb (panelName e) sel then 1 else 0).
Proof.
  intros Hl. unfold toggle_entry, bind, read_cell. rewrite Hl.
  destruct (String.eqb (panelName e) sel).
  - unfold alloc. intros [= <- <-].
    rewrite map_size_insert_None; [lia|]. apply not_elem_of_dom, is_fresh.
  - unfold ret. intros [= <- <-]. lia.
Qed.

Lemma array_elems_map_size sel es ents (h : heap) es' (h' : heap) :
  entries_at h es ents ->
  array_elems_map (toggle_entry sel) es h = Some (es', h') ->
  size h' = size h + matching sel ents.
Proof.
  revert ents h es' h'. induction es as [|l es IH]; intros ents h es' h' Hents.
  - apply Forall2_nil_inv_l in Hents as ->. simpl. unfold ret. intros [= <- <-]. lia.
  - apply Forall2_cons_inv_l in Hents as (e & ents' & Hl & Hrest & ->).
    destruct (toggle_entry_spec sel l e h Hl) as (l1 & h1 & Hrun1 & Hsub1 & _ & _).
    simpl. unfold bind at 1. rewrite Hrun1. unfold bind at 1.
    destruct (array_elems_map (toggle_entry sel) es h1) as [[es2 h2]|] eqn:Hrun2;
      [|discriminate].
    unfold ret. intros [= <- <-].
    rewrite (IH ents' h1 es2 h2 (entries_at_mono _ _ _ _ Hsub1 Hrest) Hrun2).
    rewrite (toggle_entry_size sel l e h l1 h1 Hl Hrun1). lia.
Qed.

(** X4. A click copies only what it changes: the store grows by exactly one
    array and one object per entry whose name matches; entries that do not
    match are shared with the old collection, not copied. *)
Theorem click_allocates_only_copies
    (h : heap) (prev : loc) (ents : list PanelEntry) (sel : string) :
  panel_entries h prev = Some ents ->
  exists next h',
    panelShowHandler_updater sel prev h = Some (next, h') /\
    size h' = size h + matching sel ents + 1 /\
    matching sel ents <= length ents.
Proof.
  intros (es & Hprev & Hents)%panel_entries_Some.
  destruct (array_elems_map_spec sel es ents h Hents) as (es' & h1 & Hrun & _).
  pose proof (array_elems_map_size sel es ents h es' h1 Hents Hrun) as Hsize.
  exists (fresh (dom h1)), (<[fresh (dom h1) := CArray es']> h1).
  split.
  { unfold panelShowHandler_updater, array_map, bind, read_array.
    rewrite Hprev, Hrun. reflexivity. }
  split.
  { rewrite map_size_insert_None; [lia|]. apply not_elem_of_dom, is_fresh. }
  clear. induction ents as [|e ents IH]; simpl; [lia|].
  destruct (String.eqb (panelName e) sel); lia.
Qed.

Lemma click_allocates_only_copies_witness :
  exists next h',
    panelShowHandler_updater "Report" (panelState initial_app) initial_heap
      = Some (next, h') /\
    size h' = size initial_heap + matching "Report" initial_entries + 1 /\
    matching "Report" initial_entries <= length initial_entries.
Proof.
  apply (click_allocates_only_copies initial_heap (panelState initial_app) initial_entries).
  vm_compute. reflexivity.
Defined.

(** ** The menu and the click handler together *)

(** X5. On a collection of entries, clicking a rendered menu item passes the
    name of the entry it was rendered from; after that click the item at the same position shows the
    same text with its check mark toggled, and every item with a different
    text is rendered exactly as before. *)
Theorem clicking_an_item_toggles_its_check
    (css : string -> string) (h : heap) (st : app) (ents : list PanelEntry)
    (items : list node) (i : nat) (item : node) :
  panel_entries h (panelState st) = Some ents ->
  viewList css h st = Some items ->
  items !! i = Some item ->
  exists sel st' h' items' item',
    on_click_target item = Some sel /\
    text_content item = sel /\
    panelShowHandler sel st h = Some (st', h') /\
    viewList css h' st' = Some items' /\
    length items' = length items /\
    items' !! i = Some item' /\
    text_content item' = text_content item /\
    has_icon faCheck item' = negb (has_icon faCheck item) /\
    (forall j other, items !! j = Some other ->
       text_content other <> text_content item -> items' !! j = Some other).
Proof.
  intros Hwf Hview Hitem.
  rewrite (viewList_entries css h st ents Hwf) in Hview. injection Hview as <-.
  rewrite list_lookup_imap in Hitem.
  destruct (ents !! i) as [e|] eqn:He; [|discriminate].
  simpl in Hitem. injection Hitem as <-.
  destruct (view_item_shows css e i) as (Htext & Hcheck & _).
  destruct (click_step (panelName e) st h ents Hwf) as (st' & h' & ents' & Hrun & Hwf' & -> & _).
  exists (panelName e), st', h'.
  eexists _, (view_item css (toggled (panelName e) e) i).
  split; [reflexivity|]. split; [exact Htext|]. split; [exact Hrun|].
  split; [exact (viewList_entries css h' st' _ Hwf')|].
  split; [by rewrite !length_imap, length_map|].
  split; [by rewrite list_lookup_imap, list_lookup_fmap, He|].
  destruct (view_item_shows css (toggled (panelName e) e) i) as (Htext' & Hcheck' & _).
  split; [by rewrite Htext', Htext, toggled_name|].
  split.
  { rewrite Hcheck', Hcheck. unfold toggled. by rewrite String.eqb_refl. }
  intros j other Hother Hne. rewrite list_lookup_imap in Hother.
  rewrite list_lookup_imap, list_lookup_fmap.
  destruct (ents !! j) as [ej|]; [|discriminate].
  simpl in *. injection Hother as <-. f_equal. f_equal.
  destruct (view_item_shows css ej j) as (Htj & _). rewrite Htj, Htext in Hne.
  unfold toggled. destruct (String.eqb_spec (panelName ej) (panelName e)); congruence.
Qed.

Lemma clicking_an_item_toggles_its_check_witness :
  exists sel st' h' items' item',
    on_click_target (view_item (fun cls => cls) (mkPanelEntry "Report" false) 3) = Some sel /\
    text_content (view_item (fun cls => cls) (mkPanelEntry "Report" false) 3) = sel /\
    panelShowHandler sel initial_app initial_heap = Some (st', h') /\
    viewList (fun cls => cls) h' st' = Some items' /\
    length items' = length (imap (fun index el => view_item (fun cls => cls) el index)
                              initial_entries) /\
    items' !! 3 = Some item' /\
    text_content item'
      = text_content (view_item (fun cls => cls) (mkPanelEntry "Report" false) 3) /\
    has_icon faCheck item'
      = negb (has_icon faCheck (view_item (fun cls => cls) (mkPanelEntry "Report" false) 3)) /\
    (forall j other,
       imap (fun index el => view_item (fun cls => cls) el index) initial_entries !! j
         = Some other ->
       text_content other
         <> text_content (view_item (fun cls => cls) (mkPanelEntry "Report" false) 3) ->
       items' !! j = Some other).
Proof.
  apply (clicking_an_item_toggles_its_check (fun cls => cls) initial_heap initial_app
           initial_entries
           (imap (fun index el => view_item (fun cls => cls) el index) initial_entries) 3
           (view_item (fun cls => cls) (mkPanelEntry "Report" false) 3)).
  - vm_compute. reflexivity.
  - vm_compute. reflexivity.
  - reflexivity.
Defined.

(** ** Keys of the menu items *)

Lemma string_of_nat_inj (i j : nat) : string_of_nat i = string_of_nat j -> i = j.
Proof.
  assert (Hback : forall n,
            match NilZero.uint_of_string (string_of_nat n) with
            | Some u => Nat.of_uint u
            | None => 0
            end = n).
  { intros n. unfold string_of_nat.
    destruct (Nat.to_uint n) as [| | | | | | | | | |] eqn:E;
      try (rewrite NilZero.usu by discriminate; rewrite <- E; apply Unsigned.of_to).
    pose proof (Unsigned.of_to n) as Hn. rewrite E in Hn. simpl in *. exact Hn. }
  intros Heq. rewrite <- (Hback i), <- (Hback j), Heq. reflexivity.
Qed.

Lemma append_inj_l (p s t : string) : p +:+ s = p +:+ t -> s = t.
Proof.
  induction p as [|c p IH]; [trivial|].
  change (String c (p +:+ s) = String c (p +:+ t) -> s = t).
  intros [= H]. by apply IH.
Qed.

Lemma item_key_eq (css : string -> string) (e : PanelEntry) (i : nat) :
  item_key (view_item css e i) = Some (VStr (panelName e +:+ string_of_nat i)).
Proof. reflexivity. Qed.

(** X6. The index appended to the name in an item's key keeps the keys of
    items with equal names apart: two items at different positions whose
    entries have the same name never get the same key. *)
Theorem item_keys_separate_equal_names
    (css : string -> string) (a b : PanelEntry) (i j : nat) :
  panelName a = panelName b -> i <> j ->
  item_key (view_item css a i) <> item_key (view_item css b j).
Proof.
  intros Hname Hij. rewrite !item_key_eq, Hname. intros [= H].
  apply append_inj_l, string_of_nat_inj in H. contradiction.
Qed.

Lemma item_keys_separate_equal_names_witness :
  item_key (view_item (fun cls => cls) (mkPanelEntry "Report" false) 3)
  <> item_key (view_item (fun cls => cls) (mkPanelEntry "Report" true) 4).
Proof.
  apply (item_keys_separate_equal_names (fun cls => cls)
           (mkPanelEntry "Report" false) (mkPanelEntry "Report" true) 3 4).
  - reflexivity.
  - discriminate.
Defined.

(** ** The wrappers on arbitrary context values *)

Section WrapperReads.

Variable css : string -> string.

Lemma get_prop_read (v : value) (k : string) :
  nullish v = false -> get_prop v k = Normal (read v k).
Proof.
  unfold read. destruct v; try discriminate; intros _; simpl.
  - reflexivity.
  - reflexivity.
  - destruct (index_of_key k); [reflexivity|]. by destruct (String.eqb k "length").
  - reflexivity.
  - destruct (index_of_key k); [reflexivity|]. by destruct (String.eqb k "length").
Qed.

Lemma get_prop_nullish (v : value) (k : string) :
  nullish v = true ->
  (exists msg, get_prop v k = Throw (TypeError msg)) /\ read v k = VUndefined.
Proof.
  unfold read. destruct v; try discriminate; intros _; simpl; split; eauto.
Qed.

Lemma horizontal_normal_form (ctx : value) :
  if entry_readable ctx "fv" && entry_readable ctx "diagnostics"
     && entry_readable ctx "streamTable"
  then Horizontal.FlowsheetWrapper css ctx
       = Horizontal.FlowsheetWrapper css
           (flags_context (read ctx "server_port") (read ctx "fv_id")
              (flag_read ctx "fv") VUndefined
              (flag_read ctx "streamTable") (flag_read ctx "diagnostics"))
  else exists msg, Horizontal.FlowsheetWrapper css ctx = Throw (TypeError msg).
Proof.
  unfold entry_readable, flag_read, Horizontal.FlowsheetWrapper.
  destruct (nullish ctx) eqn:Hctx.
  { destruct (get_prop_nullish ctx "server_port" Hctx) as [[msg ->] _].
    destruct (get_prop_nullish ctx "panelState" Hctx) as [_ ->]. simpl. eauto. }
  rewrite (get_prop_read ctx "server_port" Hctx). cbn [cbind].
  rewrite (get_prop_read ctx "fv_id" Hctx). cbn [cbind].
  rewrite (get_prop_read ctx "panelState" Hctx). cbn [cbind].
  generalize (read ctx "server_port") (read ctx "fv_id") (read ctx "panelState").
  intros port id ps.
  destruct (nullish ps) eqn:Hps.
  { destruct (get_prop_nullish ps "fv" Hps) as [[msg ->] ->]. simpl. eauto. }
  rewrite (get_prop_read ps "fv" Hps). cbn [cbind].
  destruct (nullish (read ps "fv")) eqn:Hfv.
  { destruct (get_prop_nullish _ "show" Hfv) as [[msg ->] _]. simpl. eauto. }
  rewrite (get_prop_read _ "show" Hfv). cbn [cbind].
  rewrite (get_prop_read ps "diagnostics" Hps). cbn [cbind].
  destruct (nullish (read ps "diagnostics")) eqn:Hdg.
  { destruct (get_prop_nullish _ "show" Hdg) as [[msg ->] _]. simpl. eauto. }
  rewrite (get_prop_read _ "show" Hdg). cbn [cbind].
  rewrite (get_prop_read ps "streamTable" Hps). cbn [cbind].
  destruct (nullish (read ps "streamTable")) eqn:Hst.
  { destruct (get_prop_nullish _ "show" Hst) as [[msg ->] _]. simpl. eauto. }
  rewrite (get_prop_read _ "show" Hst). cbn [cbind].
  reflexivity.
Qed.

Lemma vertical_normal_form (ctx : value) :
  if entry_readable ctx "fv" && entry_readable ctx "variables"
     && entry_readable ctx "streamTable"
  then Vertical.FlowsheetWrapper ctx
       = Vertical.FlowsheetWrapper
           (flags_context VUndefined VUndefined
              (flag_read ctx "fv") (flag_read ctx "variables")
              (flag_read ctx "streamTable") VUndefined)
  else exists msg, Vertical.FlowsheetWrapper ctx = Throw (TypeError msg).
Proof.
  unfold entry_readable, flag_read, Vertical.FlowsheetWrapper.
  destruct (nullish ctx) eqn:Hctx.
  { destruct (get_prop_nullish ctx "panelState" Hctx) as [[msg ->] ->]. simpl. eauto. }
  rewrite (get_prop_read ctx "panelState" Hctx). cbn [cbind].
  generalize (read ctx "panelState"). intros ps.
  destruct (nullish ps) eqn:Hps.
  { destruct (get_prop_nullish ps "fv" Hps) as [[msg ->] ->]. simpl. eauto. }
  rewrite (get_prop_read ps "fv" Hps). cbn [cbind].
  destruct (nullish (read ps "fv")) eqn:Hfv.
  { destruct (get_prop_nullish _ "show" Hfv) as [[msg ->] _]. simpl. eauto. }
  rewrite (get_prop_read _ "show" Hfv). cbn [cbind].
  rewrite (get_prop_read ps "variables" Hps). cbn [cbind].
  destruct (nullish (read ps "variables")) eqn:Hvr.
  { destruct (get_prop_nullish _ "show" Hvr) as [[msg ->] _]. simpl. eauto. }
  rewrite (get_prop_read _ "show" Hvr). cbn [cbind].
  rewrite (get_prop_read ps "streamTable" Hps). cbn [cbind].
  destruct (nullish (read ps "streamTable")) eqn:Hst.
  { destruct (get_prop_nullish _ "show" Hst) as [[msg ->] _]. simpl. eauto. }
  rewrite (get_prop_read _ "show" Hst). cbn [cbind].
  reflexivity.
Qed.

End WrapperReads.

Section WrapperOutputs.

Variable css : string -> string.

Lemma horizontal_observed (port id a v s d : value) :
  exists r,
    Horizontal.FlowsheetWrapper css (flags_context port id a v s d) = Normal r /\
    (mounted Flowsheet (output r) = truthy a /\
     mounted FlowsheetHeader (output r) = truthy a /\
     mounted StreamTable (output r) = truthy s /\
     mounted FlowsheetDiagnostics (output r) = truthy d /\
     styled_hidden (output r) = false) /\
    (count_component PanelResizeHandle (output r) = 2 /\
     count_component PanelGroup (output r) = 2 /\
     count_component MinimizedBar (output r) = 1 /\
     count_component Panel (output r)
     = 1 + Nat.b2n (truthy a) + Nat.b2n (truthy s) + Nat.b2n (truthy d)) /\
    group_default_sums (output r)
    = [ (65 + Z_of_bool (truthy d) (if truthy a then 35 else 100))%Z;
        (Z_of_bool (truthy a) 65 + Z_of_bool (truthy s) 35)%Z ].
Proof.
  eexists. split; [reflexivity|]. simpl. unfold and_then.
  destruct (truthy a), (truthy s), (truthy d); repeat split; reflexivity.
Qed.

Lemma vertical_observed (port id a v s d : value) :
  exists r,
    Vertical.FlowsheetWrapper (flags_context port id a v s d) = Normal r /\
    (mounted Flowsheet (output r) = truthy a /\
     mounted FlowsheetHeader (output r) = truthy a /\
     mounted Flowsheet_variable (output r) = truthy v /\
     mounted FlowsheetVariablesHeader (output r) = truthy v /\
     mounted StreamTable (output r) = truthy s /\
     styled_hidden (output r) = false) /\
    (count_component PanelResizeHandle (output r) = 2 /\
     count_component PanelGroup (output r) = 2 /\
     count_component MinimizedBar (output r) = 0 /\
     count_component Panel (output r)
     = 1 + Nat.b2n (truthy a) + Nat.b2n (truthy v) + Nat.b2n (truthy s)) /\
    group_default_sums (output r)
    = [ (70 + Z_of_bool (truthy s) 30)%Z;
        (Z_of_bool (truthy a) 70 + Z_of_bool (truthy v) 30)%Z ].
Proof.
  eexists. split; [reflexivity|]. simpl. unfold and_then.
  destruct (truthy a), (truthy v), (truthy s); repeat split; reflexivity.
Qed.

End WrapperOutputs.

Lemma normal_or_type_error (c c' : completion rendered) (b : bool) (r0 : rendered) :
  c' = Normal r0 ->
  (if b then c = c' else exists msg, c = Throw (TypeError msg)) ->
  ((exists r, c = Normal r) <-> b = true) /\
  (forall e, c = Throw e -> exists msg, e = TypeError msg).
Proof.
  intros -> H. destruct b.
  - subst c. split; [split; eauto|]. intros e [=].
  - destruct H as [msg ->]. split.
    + split; [intros [r [=]] | discriminate].
    + intros e [= <-]. eauto.
Qed.

(** X7. A wrapper renders exactly when every panel entry it reads
    ([context.panelState.fv], [.diagnostics] and [.streamTable] for the
    horizontal layout; [.fv], [.variables] and [.streamTable] for the
    vertical one) is neither [undefined] nor [null]; otherwise it throws, and
    what it throws is always a TypeError.  A missing [show] inside an entry
    never makes it throw. *)
Theorem wrappers_throw_exactly_on_unreadable_entries
    (css : string -> string) (ctx : value) :
  ((exists r, Horizontal.FlowsheetWrapper css ctx = Normal r) <->
   entry_readable ctx "fv" && entry_readable ctx "diagnostics"
   && entry_readable ctx "streamTable" = true) /\
  (forall e, Horizontal.FlowsheetWrapper css ctx = Throw e -> exists msg, e = TypeError msg) /\
  ((exists r, Vertical.FlowsheetWrapper ctx = Normal r) <->
   entry_readable ctx "fv" && entry_readable ctx "variables"
   && entry_readable ctx "streamTable" = true) /\
  (forall e, Vertical.FlowsheetWrapper ctx = Throw e -> exists msg, e = TypeError msg).
Proof.
  destruct (horizontal_observed css (read ctx "server_port") (read ctx "fv_id")
              (flag_read ctx "fv") VUndefined (flag_read ctx "streamTable")
              (flag_read ctx "diagnostics")) as (rh & Hrh & _).
  destruct (vertical_observed VUndefined VUndefined
              (flag_read ctx "fv") (flag_read ctx "variables")
              (flag_read ctx "streamTable") VUndefined) as (rv & Hrv & _).
  destruct (normal_or_type_error _ _ _ _ Hrh (horizontal_normal_form css ctx)) as [H1 H2].
  destruct (normal_or_type_error _ _ _ _ Hrv (vertical_normal_form ctx)) as [H3 H4].
  repeat split; first [apply H1 | apply H2 | apply H3 | apply H4].
Qed.

(** X8. Horizontal layout, any context on which it renders: a region is
    mounted exactly when the flag read for it is truthy (a missing [show]
    counts as false), nothing is styled hidden, and the frame of the layout
    does not depend on the flags: always two panel groups, two resize
    handles and the minimized bar, plus one panel per shown region around
    the fixed left panel. *)
Theorem horizontal_layout_by_truthiness
    (css : string -> string) (ctx : value) (r : rendered) :
  Horizontal.FlowsheetWrapper css ctx = Normal r ->
  (mounted Flowsheet (output r) = truthy (flag_read ctx "fv") /\
   mounted FlowsheetHeader (output r) = truthy (flag_read ctx "fv") /\
   mounted StreamTable (output r) = truthy (flag_read ctx "streamTable") /\
   mounted FlowsheetDiagnostics (output r) = truthy (flag_read ctx "diagnostics") /\
   styled_hidden (output r) = false) /\
  (count_component PanelResizeHandle (output r) = 2 /\
   count_component PanelGroup (output r) = 2 /\
   count_component MinimizedBar (output r) = 1 /\
   count_component Panel (output r)
   = 1 + Nat.b2n (truthy (flag_read ctx "fv"))
       + Nat.b2n (truthy (flag_read ctx "streamTable"))
       + Nat.b2n (truthy (flag_read ctx "diagnostics"))).
Proof.
  intros Hr. pose proof (horizontal_normal_form css ctx) as Hn.
  destruct (entry_readable ctx "fv" && entry_readable ctx "diagnostics"
            && entry_readable ctx "streamTable").
  - destruct (horizontal_observed css (read ctx "server_port") (read ctx "fv_id")
                (flag_read ctx "fv") VUndefined (flag_read ctx "streamTable")
                (flag_read ctx "diagnostics")) as (r' & Hr' & Hm & Hc & _).
    rewrite Hn, Hr' in Hr. injection Hr as <-. split; assumption.
  - destruct Hn as [msg Hn]. congruence.
Qed.

Lemma horizontal_layout_by_truthiness_witness :
  let ctx := VObj [("panelState",
                    VObj [ ("fv", VObj []);
                           ("diagnostics", VObj [("show", VNum 1)]);
                           ("streamTable", VObj [("show", VBool true)]) ])] in
  exists r,
    Horizontal.FlowsheetWrapper (fun cls => cls) ctx = Normal r /\
    (mounted Flowsheet (output r) = truthy (flag_read ctx "fv") /\
     mounted FlowsheetHeader (output r) = truthy (flag_read ctx "fv") /\
     mounted StreamTable (output r) = truthy (flag_read ctx "streamTable") /\
     mounted FlowsheetDiagnostics (output r) = truthy (flag_read ctx "diagnostics") /\
     styled_hidden (output r) = false) /\
    (count_component PanelResizeHandle (output r) = 2 /\
     count_component PanelGroup (output r) = 2 /\
     count_component MinimizedBar (output r) = 1 /\
     count_component Panel (output r)
     = 1 + Nat.b2n (truthy (flag_read ctx "fv"))
         + Nat.b2n (truthy (flag_read ctx "streamTable"))
         + Nat.b2n (truthy (flag_read ctx "diagnostics"))).
Proof.
  intros ctx. eexists. split; [reflexivity|].
  apply (horizontal_layout_by_truthiness (fun cls => cls) ctx). reflexivity.
Defined.

(** X9. Vertical layout, any context on which it renders: a region is mounted
    exactly when the flag read for it is truthy, nothing is styled hidden,
    and the frame is fixed: two panel groups, two resize handles, no
    minimized bar, one panel per shown region around the fixed top panel. *)
Theorem vertical_layout_by_truthiness (ctx : value) (r : rendered) :
  Vertical.FlowsheetWrapper ctx = Normal r ->
  (mounted Flowsheet (output r) = truthy (flag_read ctx "fv") /\
   mounted FlowsheetHeader (output r) = truthy (flag_read ctx "fv") /\
   mounted Flowsheet_variable (output r) = truthy (flag_read ctx "variables") /\
   mounted FlowsheetVariablesHeader (output r) = truthy (flag_read ctx "variables") /\
   mounted StreamTable (output r) = truthy (flag_read ctx "streamTable") /\
   styled_hidden (output r) = false) /\
  (count_component PanelResizeHandle (output r) = 2 /\
   count_component PanelGroup (output r) = 2 /\
   count_component MinimizedBar (output r) = 0 /\
   count_component Panel (output r)
   = 1 + Nat.b2n (truthy (flag_read ctx "fv"))
       + Nat.b2n (truthy (flag_read ctx "variables"))
       + Nat.b2n (truthy (flag_read ctx "streamTable"))).
Proof.
  intros Hr. pose proof (vertical_normal_form ctx) as Hn.
  destruct (entry_readable ctx "fv" && entry_readable ctx "variables"
            && entry_readable ctx "streamTable").
  - destruct (vertical_observed VUndefined VUndefined
                (flag_read ctx "fv") (flag_read ctx "variables")
                (flag_read ctx "streamTable") VUndefined) as (r' & Hr' & Hm & Hc & _).
    rewrite Hn, Hr' in Hr. injection Hr as <-. split; assumption.
  - destruct Hn as [msg Hn]. congruence.
Qed.

Lemma vertical_layout_by_truthiness_witness :
  let ctx := VObj [("panelState",
                    VObj [ ("fv", VObj [("show", VBool true)]);
                           ("variables", VObj [("show", VStr EmptyString)]);
                           ("streamTable", VObj []) ])] in
  exists r,
    Vertical.FlowsheetWrapper ctx = Normal r /\
    (mounted Flowsheet (output r) = truthy (flag_read ctx "fv") /\
     mounted FlowsheetHeader (output r) = truthy (flag_read ctx "fv") /\
     mounted Flowsheet_variable (output r) = truthy (flag_read ctx "variables") /\
     mounted FlowsheetVariablesHeader (output r) = truthy (flag_read ctx "variables") /\
     mounted StreamTable (output r) = truthy (flag_read ctx "streamTable") /\
     styled_hidden (output r) = false) /\
    (count_component PanelResizeHandle (output r) = 2 /\
     count_component PanelGroup (output r) = 2 /\
     count_component MinimizedBar (output r) = 0 /\
     count_component Panel (output r)
     = 1 + Nat.b2n (truthy (flag_read ctx "fv"))
         + Nat.b2n (truthy (flag_read ctx "variables"))
         + Nat.b2n (truthy (flag_read ctx "streamTable"))).
Proof.
  intros ctx. eexists. split; [reflexivity|].
  apply (vertical_layout_by_truthiness ctx). reflexivity.
Defined.

(** X10. Default sizes.  In the vertical layout the default sizes of the
    panels of a group add up to 100 exactly when all regions of the group are
    shown (70 + 30).  In the horizontal layout the inner group behaves the
    same (65 + 35), but the outer group adds the fixed 65 of the left panel
    to 35 or 100 for Diagnostics: it is 100 when Flowsheet and Diagnostics are
    both shown, 65 when Diagnostics is hidden, and 165 when Diagnostics is
    shown while Flowsheet is hidden. *)
Theorem default_sizes_of_the_groups
    (css : string -> string) (fv_id server_port : value) (fv st dg vr : bool) :
  let c := mkConfig fv_id server_port fv st dg vr in
  (exists r, Horizontal.FlowsheetWrapper css (keyed_context c) = Normal r /\
     group_default_sums (output r)
     = [ if dg then (if fv then 100 else 165)%Z else 65%Z;
         (Z_of_bool fv 65 + Z_of_bool st 35)%Z ]) /\
  (exists r, Vertical.FlowsheetWrapper (keyed_context c) = Normal r /\
     group_default_sums (output r)
     = [ (70 + Z_of_bool st 30)%Z; (Z_of_bool fv 70 + Z_of_bool vr 30)%Z ]).
Proof.
  intros c. subst c.
  split; eexists; (split; [reflexivity|]); destruct fv, st, dg, vr; reflexivity.
Qed.

(** ** The driver over arbitrary renders *)

Section DriverDiscipline.

Variable css : string -> string.

Lemma resolved_port_not_dev (port : value) :
  loose_eq_5173 (resolve_server_port port) = false.
Proof.
  unfold resolve_server_port. destruct (loose_eq_5173 port) eqn:E; [reflexivity | exact E].
Qed.

Lemma horizontal_effect (ctx : value) (r : rendered) :
  Horizontal.FlowsheetWrapper css ctx = Normal r ->
  exists id port a s,
    effect r = {| run := Horizontal.mount_effect id port a s; deps := [a; s] |}.
Proof.
  intros Hr. pose proof (horizontal_normal_form css ctx) as Hn.
  destruct (entry_readable ctx "fv" && entry_readable ctx "diagnostics"
            && entry_readable ctx "streamTable").
  - rewrite Hn in Hr.
    change (Horizontal.FlowsheetWrapper css
              (flags_context (read ctx "server_port") (read ctx "fv_id")
                 (flag_read ctx "fv") VUndefined (flag_read ctx "streamTable")
                 (flag_read ctx "diagnostics")))
      with (Normal
              {| effect :=
                   {| run := Horizontal.mount_effect (read ctx "fv_id")
                               (read ctx "server_port") (flag_read ctx "fv")
                               (flag_read ctx "streamTable");
                      deps := [flag_read ctx "fv"; flag_read ctx "streamTable"] |};
                 output := output
                   (match Horizontal.FlowsheetWrapper css
                            (flags_context (read ctx "server_port") (read ctx "fv_id")
                               (flag_read ctx "fv") VUndefined
                               (flag_read ctx "streamTable")
                               (flag_read ctx "diagnostics")) with
                    | Normal r0 => r0
                    | Throw _ => r
                    end) |}) in Hr.
    injection Hr as <-. simpl. eauto.
  - destruct Hn as [msg Hn]. congruence.
Qed.

Lemma renders_live (ctxs : list value) :
  forall (ds : list value) (n : nat) (tr : list event),
  exists rest,
    trace (renders (Horizontal.FlowsheetWrapper css) ctxs
             (Some {| last_deps := ds; cleanup := Some (cleanToolBarEvent n) |})
             {| next_inst := S n; trace := tr |}).2 = (tr ++ rest)%list /\
    (forall i p a v s, released_in_turn n (NewMainFV n i p a v s :: rest) = true) /\
    creations rest <= length ctxs /\
    Forall args_ok rest.
Proof.
  induction ctxs as [|ctx ctxs IH]; intros ds n tr.
  - exists [CleanToolBarEvent n]. split; [reflexivity|]. split.
    + intros. simpl. by rewrite Nat.eqb_refl.
    + split; [simpl; lia | repeat constructor].
  - cbn [renders].
    destruct (Horizontal.FlowsheetWrapper css ctx) as [r|e] eqn:Hr.
    + destruct (horizontal_effect ctx r Hr) as (id & port & a & s & Heff).
      unfold commit, ebind. cbn [last_deps cleanup]. rewrite Heff. cbn [deps].
      destruct (deps_equal ds [a; s]).
      * destruct (IH ds n tr) as (rest & Htr & Hrel & Hcr & Hok).
        exists rest. split; [exact Htr|]. split; [exact Hrel|]. split; [simpl; lia | exact Hok].
      * destruct (IH [a; s] (S n)
                    ((tr ++ [CleanToolBarEvent n]) ++
                     [NewMainFV (S n) id (resolve_server_port port) a (VBool false) s])%list)
          as (rest & Htr & Hrel & Hcr & Hok).
        exists (CleanToolBarEvent n
                :: NewMainFV (S n) id (resolve_server_port port) a (VBool false) s :: rest).
        split; [|split; [|split]].
        -- etrans; [exact Htr|]. by rewrite <- !app_assoc.
        -- intros.
           change (Nat.eqb n n && Nat.eqb n n
                   && released_in_turn (S n)
                        (NewMainFV (S n) id (resolve_server_port port) a (VBool false) s
                         :: rest) = true).
           by rewrite Nat.eqb_refl, Hrel.
        -- simpl. lia.
        -- constructor; [exact I|]. constructor; [|exact Hok].
           split; [apply resolved_port_not_dev | reflexivity].
    + exists [CleanToolBarEvent n]. split; [reflexivity|]. split.
      * intros. simpl. by rewrite Nat.eqb_refl.
      * split; [simpl; lia | repeat constructor].
Qed.

Lemma lifecycle_any (ctxs : list value) :
  released_in_turn 0 (lifecycle (Horizontal.FlowsheetWrapper css) ctxs) = true /\
  creations (lifecycle (Horizontal.FlowsheetWrapper css) ctxs) <= length ctxs /\
  Forall args_ok (lifecycle (Horizontal.FlowsheetWrapper css) ctxs).
Proof.
  unfold lifecycle. destruct ctxs as [|ctx ctxs]; [repeat split; constructor|].
  cbn [renders].
  destruct (Horizontal.FlowsheetWrapper css ctx) as [r|e] eqn:Hr;
    [|repeat split; [simpl; lia | constructor]].
  destruct (horizontal_effect ctx r Hr) as (id & port & a & s & Heff).
  unfold commit, run_effect, ebind. rewrite Heff. cbn [run deps].
  destruct (renders_live ctxs [a; s] 0
              [NewMainFV 0 id (resolve_server_port port) a (VBool false) s])
    as (rest & Htr & Hrel & Hcr & Hok).
  match goal with
  | |- released_in_turn 0 (trace ?w) = true /\ _ =>
      replace (trace w)
        with ([NewMainFV 0 id (resolve_server_port port) a (VBool false) s] ++ rest)%list
        by (symmetry; exact Htr)
  end.
  split; [apply Hrel|]. split; [simpl; lia|].
  constructor; [|exact Hok]. split; [apply resolved_port_not_dev | reflexivity].
Qed.

End DriverDiscipline.

(** X11. Release discipline, for any sequence of context values (whatever the
    flags are, and also when a render throws): in the horizontal layout an
    instance is created only after the previous one was released, every
    instance is released, and at most one instance is created per render. *)
Theorem driver_released_in_turn_for_any_renders
    (css : string -> string) (ctxs : list value) :
  released_in_turn 0 (lifecycle (Horizontal.FlowsheetWrapper css) ctxs) = true /\
  creations (lifecycle (Horizontal.FlowsheetWrapper css) ctxs) <= length ctxs.
Proof.
  destruct (lifecycle_any css ctxs) as (H1 & H2 & _). split; assumption.
Qed.

(** X12. Whatever the context values, every driver instance is constructed
    with [false] for the variables flag and with a port that is not loosely
    equal to "5173". *)
Theorem driver_never_gets_dev_port (css : string -> string) (ctxs : list value) :
  Forall args_ok (lifecycle (Horizontal.FlowsheetWrapper css) ctxs).
Proof. apply (lifecycle_any css ctxs). Qed.

(** ** The vertical layout has no driver *)

Lemma vertical_effect (ctx : value) (r : rendered) :
  Vertical.FlowsheetWrapper ctx = Normal r ->
  effect r = {| run := eret None; deps := [] |}.
Proof.
  intros Hr. pose proof (vertical_normal_form ctx) as Hn.
  destruct (entry_readable ctx "fv" && entry_readable ctx "variables"
            && entry_readable ctx "streamTable").
  - destruct (vertical_observed VUndefined VUndefined
                (flag_read ctx "fv") (flag_read ctx "variables")
                (flag_read ctx "streamTable") VUndefined) as (r' & Hr' & _).
    rewrite Hn in Hr. rewrite Hr in Hr'. injection Hr' as <-.
    revert Hr. unfold Vertical.FlowsheetWrapper, flags_context. simpl.
    intros [= <-]. reflexivity.
  - destruct Hn as [msg Hn]. congruence.
Qed.

Lemma vertical_renders_silent (ctxs : list value) :
  forall (f : option fiber) (w : world),
    match f with Some f => cleanup f = None | None => True end ->
    (renders Vertical.FlowsheetWrapper ctxs f w).2 = w.
Proof.
  induction ctxs as [|ctx ctxs IH]; intros f w Hf.
  - destruct f as [[ds [c|]]|]; try discriminate; reflexivity.
  - cbn [renders]. destruct (Vertical.FlowsheetWrapper ctx) as [r|e] eqn:Hr.
    + pose proof (vertical_effect ctx r Hr) as Heff.
      destruct f as [[ds c]|]; unfold commit, run_effect, ebind; rewrite Heff;
        cbn [deps run last_deps cleanup eret].
      * simpl in Hf. subst c.
        destruct (deps_equal ds []); cbn [run_cleanup eret]; apply IH; reflexivity.
      * apply IH. reflexivity.
    + destruct f as [[ds [c|]]|]; try discriminate; reflexivity.
Qed.

(** X13. The vertical layout never constructs or releases a driver, whatever
    the sequence of context values: its effect is empty. *)
Theorem vertical_layout_never_touches_the_driver (ctxs : list value) :
  lifecycle Vertical.FlowsheetWrapper ctxs = [].
Proof.
  unfold lifecycle. by rewrite vertical_renders_silent.
Qed.

(** ** The loader and the clicks *)

Lemma clicks_frame (names : list string) :
  forall (st : app) (h : heap) (st' : app) (h' : heap),
    clicks names st h = Some (st', h') ->
    flowsheetState st' = flowsheetState st /\
    console_errors st' = console_errors st /\
    requests st' = requests st /\
    forall loaded, clicks names (with_loaded st loaded) h = Some (with_loaded st' loaded, h').
Proof.
  induction names as [|n names IH]; intros st h st' h'.
  - simpl. unfold ret. intros [= <- <-]. by repeat split.
  - cbn [clicks]. unfold panelShowHandler, setPanelState, bind, ret.
    destruct (panelShowHandler_updater n (panelState st) h) as [[next h1]|] eqn:Hup;
      [|discriminate].
    intros Hrest. destruct (IH _ _ _ _ Hrest) as (Hf & Hc & Hr & Hall).
    split; [exact Hf|]. split; [exact Hc|]. split; [exact Hr|].
    intros loaded. cbn [with_loaded panelState]. rewrite Hup.
    exact (Hall loaded).
Qed.

(** X14. The loader and the clicks do not interfere: the demo request may
    settle before or after any sequence of clicks with the same final state.
    Clicks never touch the flowsheet state, the console or the requests, and
    the loader never touches the panel state; the loader always completes
    normally. *)
Theorem loader_and_clicks_commute
    (network : string -> settled response) (names : list string)
    (st : app) (h : heap) (st' : app) (h' : heap) :
  clicks names st h = Some (st', h') ->
  clicks names (loadDemoFlowsheet network st).2 h
    = Some ((loadDemoFlowsheet network st').2, h') /\
  (flowsheetState st' = flowsheetState st /\
   console_errors st' = console_errors st /\
   requests st' = requests st) /\
  (panelState (loadDemoFlowsheet network st).2 = panelState st /\
   panelState (loadDemoFlowsheet network st').2 = panelState st') /\
  (loadDemoFlowsheet network st).1 = Normal tt /\
  (loadDemoFlowsheet network st').1 = Normal tt.
Proof.
  intros Hrun. destruct (clicks_frame names st h st' h' Hrun) as (Hf & Hc & Hr & Hall).
  assert (Hload : forall s : app,
            (loadDemoFlowsheet network s).1 = Normal tt /\
            panelState (loadDemoFlowsheet network s).2 = panelState s).
  { intros s. unfold loadDemoFlowsheet, try_catch, xbind, axios_get.
    destruct (network "/data/demo_flowsheet.json"); split; reflexivity. }
  assert (Hst : (loadDemoFlowsheet network st).2
                = with_loaded st (loadDemoFlowsheet network st).2).
  { unfold loadDemoFlowsheet, try_catch, xbind, axios_get.
    destruct (network "/data/demo_flowsheet.json"); reflexivity. }
  assert (Hst' : (loadDemoFlowsheet network st').2
                 = with_loaded st' (loadDemoFlowsheet network st).2).
  { unfold loadDemoFlowsheet, try_catch, xbind, axios_get, with_loaded.
    destruct (network "/data/demo_flowsheet.json"); simpl; by rewrite ?Hf, ?Hc, ?Hr. }
  split; [rewrite Hst' at 1; rewrite Hst at 1; apply Hall|].
  split; [by repeat split|].
  split; [split; apply Hload|]. split; apply Hload.
Qed.

Lemma loader_and_clicks_commute_witness :
  let network := fun _ : string => Fulfilled (mkResponse (VObj [("model", VNull)]) 200) in
  exists st' h',
    clicks ["Report"; "Variables"] initial_app initial_heap = Some (st', h') /\
    clicks ["Report"; "Variables"] (loadDemoFlowsheet network initial_app).2 initial_heap
      = Some ((loadDemoFlowsheet network st').2, h') /\
    (flowsheetState st' = flowsheetState initial_app /\
     console_errors st' = console_errors initial_app /\
     requests st' = requests initial_app) /\
    (panelState (loadDemoFlowsheet network initial_app).2 = panelState initial_app /\
     panelState (loadDemoFlowsheet network st').2 = panelState st') /\
    (loadDemoFlowsheet network initial_app).1 = Normal tt /\
    (loadDemoFlowsheet network st').1 = Normal tt.
Proof.
  intros network. eexists _, _. split; [vm_compute; reflexivity|].
  apply (loader_and_clicks_commute network ["Report"; "Variables"] initial_app initial_heap).
  vm_compute. reflexivity.
Defined.

(** ** The View menu as a whole *)




(** ** States reachable from start-up *)

Lemma matching_by_names (sel : string) (ents ents0 : list PanelEntry) :
  map panelName ents = map panelName ents0 -> matching sel ents = matching sel ents0.
Proof.
  revert ents0. induction ents as [|e ents IH]; intros [|e0 ents0]; try discriminate.
  - reflexivity.
  - simpl. intros [= -> H]. by rewrite (IH ents0 H).
Qed.

(** X16. In every state reachable from start-up by clicks the collection is
    well formed and holds the five start-up names, in order and without
    duplicates; the flowsheet state is still [null]; and a click on any name
    therefore flips at most one flag. *)
Theorem reachable_states_keep_the_five_names (names : list string) (sel : string) :
  exists st h ents,
    clicks names initial_app initial_heap = Some (st, h) /\
    panel_entries h (panelState st) = Some ents /\
    map panelName ents
      = ["Flowsheet"; "Variables"; "Stream Table"; "Report"; "Diagnostics"] /\
    NoDup (map panelName ents) /\
    flowsheetState st = VNull /\
    matching sel ents <= 1.
Proof.
  assert (Hinit : panel_entries initial_heap (panelState initial_app) = Some initial_entries)
    by (vm_compute; reflexivity).
  destruct (clicks_well_formed names _ _ _ Hinit) as (st & h & ents & Hrun & Hwf & Hn & Hf).
  exists st, h, ents. split; [exact Hrun|]. split; [exact Hwf|].
  split; [exact Hn|]. split; [|split; [exact Hf|]].
  - rewrite Hn. apply (bool_decide_unpack _). vm_compute. exact I.
  - rewrite (matching_by_names sel ents initial_entries Hn).
    unfold initial_entries. cbn [matching panelName].
    repeat match goal with
           | |- context [String.eqb ?a sel] =>
               destruct (String.eqb_spec a sel); subst; try discriminate
           end; simpl; lia.
Qed.
